(** * jsr-npm: the command layer ([src/commands.ts])

    A shallow embedding of [wrapWithStatus], [setupNpmRc],
    [setupBunfigToml] and [publish], together with the properties of the
    registry-configuration writers and of the publish runner.

    Conventions of the embedding.
    - A JavaScript string is the list of its UTF-16 code units ([list N]).
      [fs.promises.readFile(p, "utf-8")] yields the decoded text of the file
      and [writeFile] stores text, so a file is modelled by its text.
    - [async]/[await] code in this module is strictly sequential (every
      promise is awaited where it is created), so an [async] function is a
      computation in a state-and-exception monad over the [World].
    - A JavaScript exception is a value of type [thrown]; [try]/[catch] is
      [try_catch].
    - Everything the module does to the outside (console, file system,
      download, subprocess) is appended to the [trace] of the world. *)

From Stdlib Require Import NArith Ascii String List Bool Lia.
From stdpp Require Import base option list gmap.

Import ListNotations.
Local Open Scope N_scope.
Local Open Scope list_scope.

(** ** JavaScript strings *)

Abbreviation jsstring := (list N).

(** Code units of an ASCII literal. *)
Definition lit (s : string) : jsstring :=
  List.map N_of_ascii (list_ascii_of_string s).

Definition LF : N := 10.
Definition DQUOTE : N := 34.
Definition EQUALS : N := 61.

(** [pat] is a prefix of [s] (code unit by code unit). *)
Fixpoint starts_with (pat s : jsstring) : bool :=
  match pat, s with
  | [], _ => true
  | _ :: _, [] => false
  | a :: pat', b :: s' => (a =? b) && starts_with pat' s'
  end.

(** [String.prototype.includes]: [pat] occurs in [s] as a substring. *)
Fixpoint includes (s pat : jsstring) : bool :=
  starts_with pat s ||
  match s with
  | [] => false
  | _ :: s' => includes s' pat
  end.

(** Number of positions of [s] at which [pat] occurs. *)
Fixpoint occurrences (pat s : jsstring) : nat :=
  ((if starts_with pat s then 1 else 0) +
   match s with
   | [] => 0
   | _ :: s' => occurrences pat s'
   end)%nat.

(** ** Exceptions *)

(** What the module inspects of a thrown value: whether it is an instance of
    [Error], and its [code] property ([undefined] is [None]).  [message]
    tells apart the failures that agree on both. *)
Record thrown := Thrown {
  instanceof_Error : bool;
  code : option jsstring;
  message : jsstring
}.

Definition ENOENT : jsstring := lit "ENOENT".

(** [a === b] on strings. *)
Definition jsstring_eqb (a b : jsstring) : bool :=
  bool_decide (a = b).

(** [(err as any).code === c] *)
Definition code_is (err : thrown) (c : jsstring) : bool :=
  match code err with
  | Some c' => jsstring_eqb c' c
  | None => false
  end.

(** [err instanceof Error && (err as any).code === "ENOENT"] *)
Definition is_ENOENT (err : thrown) : bool :=
  instanceof_Error err && code_is err ENOENT.

(** The rejection of [fs.promises.readFile] on a missing file. *)
Definition enoent_error (p : jsstring) : thrown :=
  Thrown true (Some ENOENT) (lit "ENOENT: no such file or directory, open '" ++ p ++ lit "'").

(** ** The world *)

(** Modelled from the spec: the download descriptor returned by
    [getDenoDownloadUrl] of [./download], "a {version, downloadURL} pair"
    (section 3 of the specification).  [publish] reads [version] only. *)
Record DownloadInfo := {
  version : jsstring;
  url : jsstring
}.

Inductive event :=
| Stdout (s : jsstring)                          (* process.stdout.write(s) *)
| ReadFile (p : jsstring)                        (* fs.promises.readFile(p, "utf-8") *)
| WriteFile (p content : jsstring)               (* fs.promises.writeFile(p, content) *)
| GetDenoDownloadUrl                             (* getDenoDownloadUrl() *)
| FileExists (p : jsstring)                      (* fileExists(p) *)
| Rm (p : jsstring) (recursive : bool)           (* fs.promises.rm(p, { recursive }) *)
| DownloadDeno (p : jsstring) (info : DownloadInfo)  (* downloadDeno(p, info) *)
| Exec (bin : jsstring) (args : list jsstring) (cwd : jsstring). (* exec(bin, args, cwd) *)

Inductive result (A : Type) :=
| Ok (a : A)
| Throw (err : thrown).
Arguments Ok {A} a.
Arguments Throw {A} err.

(** [files] holds the text of every regular file.  The remaining fields are
    the answers of the environment: a path on which a read or a write is
    refused (permissions, I/O), and the outcome of each call into
    [./utils], [./download] and [fs.promises.rm], none of which is part of
    this module. *)
Record World := {
  files : gmap jsstring jsstring;
  read_fault : jsstring -> option thrown;
  write_fault : jsstring -> option thrown;
  download_url : result DownloadInfo;
  exists_answer : jsstring -> bool;
  rm_fault : jsstring -> option thrown;
  download_fault : jsstring -> DownloadInfo -> option thrown;
  exec_fault : jsstring -> list jsstring -> jsstring -> option thrown;
  trace : list event
}.

Definition emit (ev : event) (w : World) : World :=
  {| files := files w; read_fault := read_fault w; write_fault := write_fault w;
     download_url := download_url w; exists_answer := exists_answer w;
     rm_fault := rm_fault w; download_fault := download_fault w;
     exec_fault := exec_fault w; trace := trace w ++ [ev] |}.

Definition store (p content : jsstring) (w : World) : World :=
  {| files := <[p := content]> (files w);
     read_fault := read_fault w; write_fault := write_fault w;
     download_url := download_url w; exists_answer := exists_answer w;
     rm_fault := rm_fault w; download_fault := download_fault w;
     exec_fault := exec_fault w; trace := trace w |}.

(** ** The monad of [async] functions *)

Definition M (A : Type) : Type := World -> result A * World.

Definition ret {A} (a : A) : M A := fun w => (Ok a, w).

Definition throw {A} (err : thrown) : M A := fun w => (Throw err, w).

Definition bind {A B} (m : M A) (k : A -> M B) : M B :=
  fun w =>
    match m w with
    | (Ok a, w') => k a w'
    | (Throw err, w') => (Throw err, w')
    end.

(** [try { m } catch (err) { handler(err) }] *)
Definition try_catch {A} (m : M A) (handler : thrown -> M A) : M A :=
  fun w =>
    match m w with
    | (Ok a, w') => (Ok a, w')
    | (Throw err, w') => handler err w'
    end.

Declare Scope js_scope.
Delimit Scope js_scope with js.
Notation "'let*' x ':=' m 'in' k" := (bind m (fun x => k))
  (at level 10, x name, m at level 100, k at level 200) : js_scope.
Notation "m ';;' k" := (bind m (fun _ => k))
  (at level 100, k at level 200, right associativity) : js_scope.
Local Open Scope js_scope.

(** Outcome of a computation that the environment may refuse. *)
Definition of_fault (f : option thrown) : M unit :=
  match f with
  | Some err => throw err
  | None => ret tt
  end.

(** *** Primitive operations *)

Definition stdout_write (s : jsstring) : M unit :=
  fun w => (Ok tt, emit (Stdout s) w).

Definition readFile (p : jsstring) : M jsstring :=
  fun w =>
    let w' := emit (ReadFile p) w in
    match read_fault w p with
    | Some err => (Throw err, w')
    | None =>
        match files w !! p with
        | Some content => (Ok content, w')
        | None => (Throw (enoent_error p), w')
        end
    end.

Definition writeFile (p content : jsstring) : M unit :=
  fun w =>
    let w' := emit (WriteFile p content) w in
    match write_fault w p with
    | Some err => (Throw err, w')
    | None => (Ok tt, store p content w')
    end.

Definition getDenoDownloadUrl : M DownloadInfo :=
  fun w => (download_url w, emit GetDenoDownloadUrl w).

Definition fileExists (p : jsstring) : M bool :=
  fun w => (Ok (exists_answer w p), emit (FileExists p) w).

Definition rm (p : jsstring) (recursive : bool) : M unit :=
  fun w => of_fault (rm_fault w p) (emit (Rm p recursive) w).

Definition downloadDeno (p : jsstring) (info : DownloadInfo) : M unit :=
  fun w => of_fault (download_fault w p info) (emit (DownloadDeno p info) w).

Definition exec (bin : jsstring) (args : list jsstring) (cwd : jsstring) : M unit :=
  fun w => of_fault (exec_fault w bin args cwd) (emit (Exec bin args cwd) w).

(** ** The module *)

Definition NPMRC_FILE : jsstring := lit ".npmrc".
Definition BUNFIG_FILE : jsstring := lit "bunfig.toml".
Definition JSR_NPMRC : jsstring :=
  lit "@jsr:registry=https://npm.jsr.io" ++ [LF].
Definition JSR_BUNFIG : jsstring :=
  lit "[install.scopes]" ++ [LF] ++
  [DQUOTE] ++ lit "@jsr" ++ [DQUOTE] ++ lit " = " ++
  [DQUOTE] ++ lit "https://npm.jsr.io/" ++ [DQUOTE] ++ [LF].

(** *** The pattern [/^"@myorg1"\s+=/gm] *)

(** [LineTerminator] of ECMAScript: what [^] looks behind for under the
    [m] flag. *)
Definition is_line_terminator (c : N) : bool :=
  (c =? 0x0A) || (c =? 0x0D) || (c =? 0x2028) || (c =? 0x2029).

(** The class [\s]: [WhiteSpace] and [LineTerminator]. *)
Definition is_whitespace (c : N) : bool :=
  (c =? 0x09) || (c =? 0x0B) || (c =? 0x0C) || (c =? 0x20) || (c =? 0xA0) ||
  (c =? 0x1680) || ((0x2000 <=? c) && (c <=? 0x200A)) ||
  (c =? 0x202F) || (c =? 0x205F) || (c =? 0x3000) || (c =? 0xFEFF) ||
  is_line_terminator c.

Definition MYORG1 : jsstring := [DQUOTE] ++ lit "@myorg1" ++ [DQUOTE].

(** The rest of [s] after the literal [pat], when [s] starts with it. *)
Fixpoint strip_prefix (pat s : jsstring) : option jsstring :=
  match pat, s with
  | [], _ => Some s
  | _ :: _, [] => None
  | a :: pat', b :: s' => if a =? b then strip_prefix pat' s' else None
  end.

Fixpoint skip_whitespace (s : jsstring) : jsstring :=
  match s with
  | c :: s' => if is_whitespace c then skip_whitespace s' else s
  | [] => []
  end.

(** The body of the pattern matched at the head of [s]: the literal, then
    [\s+] (greedy; the character after it is [=], which is no white space,
    so giving back white space never helps), then [=]. *)
Definition match_here (s : jsstring) : bool :=
  match strip_prefix MYORG1 s with
  | Some (c :: s') =>
      is_whitespace c &&
      match skip_whitespace s' with
      | e :: _ => e =? EQUALS
      | [] => false
      end
  | _ => false
  end.

(** Try every position of [s]; [bol] tells whether [^] holds at the current
    one (start of input, or just after a line terminator). *)
Fixpoint scan (bol : bool) (s : jsstring) : bool :=
  (bol && match_here s) ||
  match s with
  | [] => false
  | c :: s' => scan (is_line_terminator c) s'
  end.

(** [/^"@myorg1"\s+=/gm.test(content)]; the literal is evaluated anew at
    each call, so [lastIndex] is 0. *)
Definition myorg1_test (content : jsstring) : bool := scan true content.

(** JavaScript truthiness of a [string | undefined]. *)
Definition truthy (v : option jsstring) : bool :=
  match v with
  | Some (_ :: _) => true
  | Some [] => false
  | None => false
  end.

Record PublishOptions := {
  binFolder : jsstring;
  dryRun : bool;
  allowSlowTypes : bool;
  token : option jsstring
}.

Section Commands.

(** What Node and [kolorist] provide. *)
Variable path_join : list jsstring -> jsstring.   (* path.join(...) *)
Variable platform : jsstring.                      (* process.platform *)
Variables green red : jsstring -> jsstring.        (* kl.green, kl.red *)

Definition wrapWithStatus (msg : jsstring) (fn : M unit) : M unit :=
  stdout_write (msg ++ lit "...") ;;
  try_catch
    (fn ;;
     stdout_write (green (lit "ok") ++ [LF]))
    (fun err =>
       stdout_write (red (lit "error") ++ [LF]) ;;
       throw err).

Definition setupNpmRc (dir : jsstring) : M unit :=
  let npmRcPath := path_join [dir; NPMRC_FILE] in
  let msg := lit "Setting up " ++ NPMRC_FILE in
  try_catch
    (let* content := readFile npmRcPath in
     if negb (includes content JSR_NPMRC) then
       let content := content ++ JSR_NPMRC in
       wrapWithStatus msg (writeFile npmRcPath content)
     else ret tt)
    (fun err =>
       if is_ENOENT err then
         wrapWithStatus msg (writeFile npmRcPath JSR_NPMRC)
       else throw err).

Definition setupBunfigToml (dir : jsstring) : M unit :=
  let bunfigPath := path_join [dir; BUNFIG_FILE] in
  let msg := lit "Setting up " ++ BUNFIG_FILE in
  try_catch
    (let* content := readFile bunfigPath in
     if negb (myorg1_test content) then
       let content := content ++ JSR_BUNFIG in
       wrapWithStatus msg (writeFile bunfigPath content)
     else ret tt)
    (fun err =>
       if is_ENOENT err then
         wrapWithStatus msg (writeFile bunfigPath JSR_BUNFIG)
       else throw err).

(** The path of the cached executable. *)
Definition binPath_of (options : PublishOptions) (info : DownloadInfo) : jsstring :=
  path_join
    [binFolder options; version info; platform;
     if jsstring_eqb platform (lit "win32") then lit "deno.exe" else lit "deno"].

(** The argument list handed to the executable. *)
Definition publish_args (options : PublishOptions) : list jsstring :=
  let args :=
    [lit "publish"; lit "--unstable-bare-node-builtins"; lit "--unstable-sloppy-imports"] in
  let args := if dryRun options then args ++ [lit "--dry-run"] else args in
  let args := if allowSlowTypes options then args ++ [lit "--allow-slow-types"] else args in
  let args :=
    if truthy (token options)
    then args ++ [lit "--token"; default [] (token options)]
    else args in
  args.

Definition publish (cwd : jsstring) (options : PublishOptions) : M unit :=
  let* info := getDenoDownloadUrl in
  let binPath := binPath_of options info in
  let* present := fileExists binPath in
  (if negb present then
     try_catch
       (rm (binFolder options) true)
       (fun err =>
          if negb (instanceof_Error err) || negb (code_is err ENOENT)
          then throw err
          else ret tt) ;;
     downloadDeno binPath info
   else ret tt) ;;
  exec binPath (publish_args options) cwd.

End Commands.

(** ** Observations and sample environments *)

(** What a computation adds to the trace of the world it starts from. *)
Definition new_events {A} (m : M A) (w : World) : list event :=
  drop (length (trace w)) (trace (snd (m w))).

(** What [wrapWithStatus] prints once the action has settled. *)
Definition status_line (green red : jsstring -> jsstring) {A} (r : result A) : jsstring :=
  match r with
  | Ok _ => green (lit "ok") ++ [LF]
  | Throw _ => red (lit "error") ++ [LF]
  end.

(** A stand-in for [path.join] on already normal segments. *)
Fixpoint slash_join (parts : list jsstring) : jsstring :=
  match parts with
  | [] => lit "."
  | [p] => p
  | p :: rest => p ++ lit "/" ++ slash_join rest
  end.

(** [kolorist] with colours switched off. *)
Definition plain (s : jsstring) : jsstring := s.

Definition sample_info : DownloadInfo :=
  {| version := lit "1.41.0"; url := lit "https://dl.deno.land/release/v1.41.0/deno.zip" |}.

(** A project directory with no configuration file and no cached binary, in
    an environment that refuses nothing. *)
Definition fresh_world : World :=
  {| files := ∅;
     read_fault := fun _ => None;
     write_fault := fun _ => None;
     download_url := Ok sample_info;
     exists_answer := fun _ => false;
     rm_fault := fun _ => None;
     download_fault := fun _ _ => None;
     exec_fault := fun _ _ _ => None;
     trace := [] |}.

Definition with_file (p content : jsstring) (w : World) : World := store p content w.

Definition sample_dir : jsstring := lit "/home/dev/project".

Definition npmrc_path : jsstring := slash_join [sample_dir; NPMRC_FILE].
Definition bunfig_path : jsstring := slash_join [sample_dir; BUNFIG_FILE].

(** An [.npmrc] that already carries the registry line, and one that does
    not. *)
Definition configured_npmrc : jsstring :=
  lit "save-exact=true" ++ [LF] ++ JSR_NPMRC ++ lit "fund=false" ++ [LF].
Definition unconfigured_npmrc : jsstring :=
  lit "save-exact=true" ++ [LF].

(** [fresh_world] with other answers of the environment. *)
Definition with_cached_binary (w : World) : World :=
  {| files := files w; read_fault := read_fault w; write_fault := write_fault w;
     download_url := download_url w; exists_answer := fun _ => true;
     rm_fault := rm_fault w; download_fault := download_fault w;
     exec_fault := exec_fault w; trace := trace w |}.

Definition with_rm_fault (err : thrown) (w : World) : World :=
  {| files := files w; read_fault := read_fault w; write_fault := write_fault w;
     download_url := download_url w; exists_answer := exists_answer w;
     rm_fault := fun _ => Some err; download_fault := download_fault w;
     exec_fault := exec_fault w; trace := trace w |}.

Definition eacces_error : thrown :=
  Thrown true (Some (lit "EACCES")) (lit "EACCES: permission denied").

Definition sample_bin_folder : jsstring := lit "/home/dev/project/node_modules/jsr/.download".

Definition sample_options : PublishOptions :=
  {| binFolder := sample_bin_folder; dryRun := true; allowSlowTypes := true;
     token := Some (lit "abc") |}.

Definition empty_token_options : PublishOptions :=
  {| binFolder := sample_bin_folder; dryRun := false; allowSlowTypes := true;
     token := Some [] |}.

Definition linux : jsstring := lit "linux".

Definition sample_bin : jsstring :=
  lit "/home/dev/project/node_modules/jsr/.download/1.41.0/linux/deno".

(** A [bunfig.toml] that declares some other scope and not ["@jsr"]. *)
Definition myorg1_bunfig : jsstring :=
  lit "[install.scopes]" ++ [LF] ++
  MYORG1 ++ lit " = " ++ [DQUOTE] ++ lit "https://registry.myorg1.example/" ++ [DQUOTE] ++ [LF].

(** The line of section 6 of the specification, with a slash after the
    host. *)
Definition SLASHED_NPMRC_LINE : jsstring := lit "@jsr:registry=https://npm.jsr.io/".

(** "A line beginning with ["@myorg1"] followed by whitespace and [=]":
    [content] splits into what precedes the line (empty, or ending in a line
    terminator), the quoted name, a non-empty run of white space, the equals
    sign, and the rest. *)
Definition has_myorg1_line (content : jsstring) : Prop :=
  exists pre ws post,
    content = pre ++ MYORG1 ++ ws ++ [EQUALS] ++ post /\
    (pre = [] \/ exists pre' c, pre = pre' ++ [c] /\ is_line_terminator c = true) /\
    ws <> [] /\
    Forall (fun c => is_whitespace c = true) ws.

(** What [setupNpmRc] may write: the line alone, or a text that was read
    followed by the line. *)
Definition npmrc_write_expected (p : jsstring) (w : World) (ev : event) : Prop :=
  match ev with
  | WriteFile q c =>
      q = p /\
      (c = JSR_NPMRC \/ exists old, fst (readFile p w) = Ok old /\ c = old ++ JSR_NPMRC)
  | _ => True
  end.

(** ** [install] and [remove] *)

(** [Array.prototype.join] on strings. *)
Fixpoint js_join (sep : jsstring) (parts : list jsstring) : jsstring :=
  match parts with
  | [] => []
  | [x] => x
  | x :: rest => x ++ sep ++ js_join sep rest
  end.

(** [console.log(s)] with a single string argument. *)
Definition console_log (s : jsstring) : M unit := stdout_write (s ++ [LF]).

Inductive InstallMode := dev | prod | optional.

Section PackageManagers.

(** What [./pkg_manager] and [./utils] provide: the names of the package
    managers, the manager objects with their [cwd], [install] and [remove],
    the test [instanceof Bun], the resolution [getPkgManager], and the
    packages with their [toString] (which [join] calls). *)
Variable PkgManagerName : Type.
Variable PkgManager : Type.
Variable JsrPackage : Type.
Variable instanceof_Bun : PkgManager -> bool.
Variable pm_cwd : PkgManager -> jsstring.
Variable toString : JsrPackage -> jsstring.

Record BaseOptions := {
  pkgManagerName : option PkgManagerName
}.

(** [InstallOptions extends BaseOptions]. *)
Record InstallOptions := {
  base_options :> BaseOptions;
  mode : InstallMode
}.

Variable getPkgManager : jsstring -> option PkgManagerName -> M PkgManager.
Variable pm_install : PkgManager -> list JsrPackage -> InstallOptions -> M unit.
Variable pm_remove : PkgManager -> list JsrPackage -> M unit.

(** What Node and [kolorist] provide. *)
Variable path_join : list jsstring -> jsstring.   (* path.join(...) *)
Variable process_cwd : jsstring.                   (* process.cwd() *)
Variables green red cyan : jsstring -> jsstring.   (* kl.green, kl.red, kl.cyan *)

Definition install (packages : list JsrPackage) (options : InstallOptions) : M unit :=
  let* pkgManager := getPkgManager process_cwd (pkgManagerName options) in
  (if instanceof_Bun pkgManager then
     (* Bun doesn't support reading from .npmrc yet *)
     setupBunfigToml path_join green red (pm_cwd pkgManager)
   else
     setupNpmRc path_join green red (pm_cwd pkgManager)) ;;
  console_log
    (lit "Installing " ++ cyan (js_join (lit ", ") (List.map toString packages)) ++ lit "...") ;;
  pm_install pkgManager packages options.

Definition remove (packages : list JsrPackage) (options : BaseOptions) : M unit :=
  let* pkgManager := getPkgManager process_cwd (pkgManagerName options) in
  console_log
    (lit "Removing " ++ cyan (js_join (lit ", ") (List.map toString packages)) ++ lit "...") ;;
  pm_remove pkgManager packages.

End PackageManagers.

Arguments pkgManagerName {PkgManagerName} _.
Arguments base_options {PkgManagerName} _.
Arguments mode {PkgManagerName} _.
Arguments Build_BaseOptions {PkgManagerName} _.
Arguments Build_InstallOptions {PkgManagerName} _ _.
Arguments install {PkgManagerName PkgManager JsrPackage}.
Arguments remove {PkgManagerName PkgManager JsrPackage}.

(** A stand-in for [./pkg_manager]: a manager is [true] for Bun and [false]
    for npm, it is chosen by name, works in [dir], and runs its own
    executable. *)
Definition named_manager (cwd : jsstring) (name : option jsstring) : M bool :=
  ret (match name with
       | Some n => jsstring_eqb n (lit "bun")
       | None => false
       end).

Definition manager_install (dir : jsstring) (pm : bool) (packages : list jsstring)
    (options : InstallOptions jsstring) : M unit :=
  exec (if pm then lit "bun" else lit "npm") (lit "install" :: packages) dir.

Definition manager_remove (dir : jsstring) (pm : bool) (packages : list jsstring) : M unit :=
  exec (if pm then lit "bun" else lit "npm") (lit "remove" :: packages) dir.

(** ** The common shape of the two configuration writers *)

(** [setupNpmRc] and [setupBunfigToml] are the same function up to the path,
    the presence test and the text written; [ensure_block] is that function
    (see [setupNpmRc_shape] and [setupBunfigToml_shape]). *)
Definition ensure_block (green red : jsstring -> jsstring)
    (present : jsstring -> bool) (block msg p : jsstring) : M unit :=
  try_catch
    (let* content := readFile p in
     if negb (present content) then
       let content := content ++ block in
       wrapWithStatus green red msg (writeFile p content)
     else ret tt)
    (fun err =>
       if is_ENOENT err then
         wrapWithStatus green red msg (writeFile p block)
       else throw err).

(** ** Repeated calls *)

(** The world after [n] calls of [m] in a row, whatever each returns. *)
Fixpoint after_calls (n : nat) (m : M unit) (w : World) : World :=
  match n with
  | O => w
  | S k => after_calls k m (snd (m w))
  end.

(** The answers of the environment, which no command of this module
    changes. *)
Definition same_answers (w w' : World) : Prop :=
  read_fault w' = read_fault w /\
  write_fault w' = write_fault w /\
  download_url w' = download_url w /\
  exists_answer w' = exists_answer w /\
  rm_fault w' = rm_fault w /\
  download_fault w' = download_fault w /\
  exec_fault w' = exec_fault w.

(** [fresh_world] with further answers of the environment. *)
Definition with_read_fault (err : thrown) (w : World) : World :=
  {| files := files w; read_fault := fun _ => Some err; write_fault := write_fault w;
     download_url := download_url w; exists_answer := exists_answer w;
     rm_fault := rm_fault w; download_fault := download_fault w;
     exec_fault := exec_fault w; trace := trace w |}.

Definition with_write_fault (err : thrown) (w : World) : World :=
  {| files := files w; read_fault := read_fault w; write_fault := fun _ => Some err;
     download_url := download_url w; exists_answer := exists_answer w;
     rm_fault := rm_fault w; download_fault := download_fault w;
     exec_fault := exec_fault w; trace := trace w |}.

Definition with_download_url (r : result DownloadInfo) (w : World) : World :=
  {| files := files w; read_fault := read_fault w; write_fault := write_fault w;
     download_url := r; exists_answer := exists_answer w;
     rm_fault := rm_fault w; download_fault := download_fault w;
     exec_fault := exec_fault w; trace := trace w |}.

Definition with_download_fault (err : thrown) (w : World) : World :=
  {| files := files w; read_fault := read_fault w; write_fault := write_fault w;
     download_url := download_url w; exists_answer := exists_answer w;
     rm_fault := rm_fault w; download_fault := fun _ _ => Some err;
     exec_fault := exec_fault w; trace := trace w |}.

Definition network_error : thrown :=
  Thrown true None (lit "fetch failed").

Definition sample_packages : list jsstring := [lit "@std/path"; lit "@luca/flag@1.0.0"].

Definition npm_install_options : InstallOptions jsstring :=
  Build_InstallOptions (Build_BaseOptions (Some (lit "npm"))) prod.

Definition bun_install_options : InstallOptions jsstring :=
  Build_InstallOptions (Build_BaseOptions (Some (lit "bun"))) dev.

(** Unfolds the monad so that a command becomes a nest of matches on the
    answers of the environment. *)
Ltac run_monad :=
  unfold bind, try_catch, ret, throw, of_fault, stdout_write, writeFile,
    getDenoDownloadUrl, fileExists, rm, downloadDeno, exec; simpl.

(** Reads the events of a finished run off its trace. *)
Ltac read_events :=
  unfold new_events; simpl; rewrite <- ?app_assoc; simpl;
  rewrite ?drop_app_length; try reflexivity.

(** * Properties *)

(** ** The monad and its primitives *)

Lemma readFile_world p w : snd (readFile p w) = emit (ReadFile p) w.
Proof.
  unfold readFile.
  destruct (read_fault w p); [reflexivity|].
  destruct (files w !! p); reflexivity.
Qed.

Lemma readFile_eq p w : readFile p w = (fst (readFile p w), emit (ReadFile p) w).
Proof. rewrite <- readFile_world. by destruct (readFile p w). Qed.

Lemma readFile_missing p w :
  read_fault w p = None -> files w !! p = None ->
  fst (readFile p w) = Throw (enoent_error p) /\ is_ENOENT (enoent_error p) = true.
Proof. intros Hr Hf. unfold readFile. rewrite Hr, Hf. split; reflexivity. Qed.

Lemma readFile_present p w content :
  read_fault w p = None -> files w !! p = Some content ->
  fst (readFile p w) = Ok content.
Proof. intros Hr Hf. unfold readFile. by rewrite Hr, Hf. Qed.

Lemma not_ENOENT_guard err :
  negb (instanceof_Error err) || negb (code_is err ENOENT) = negb (is_ENOENT err).
Proof. unfold is_ENOENT. by destruct (instanceof_Error err), (code_is err ENOENT). Qed.

(** ** Strings *)

Lemma starts_with_spec pat s :
  starts_with pat s = true <-> exists rest, s = pat ++ rest.
Proof.
  revert s. induction pat as [|a pat IH]; intros s; simpl.
  - split; [intros _; by exists s | done].
  - destruct s as [|b s].
    + split; [done | intros [rest H]; discriminate].
    + rewrite andb_true_iff, N.eqb_eq, IH. split.
      * intros [-> [rest ->]]. by exists rest.
      * intros [rest H]. injection H as -> ->. eauto.
Qed.

Lemma starts_with_app pat rest : starts_with pat (pat ++ rest) = true.
Proof. apply starts_with_spec. by exists rest. Qed.

Lemma starts_with_length pat s :
  starts_with pat s = true -> (length pat <= length s)%nat.
Proof.
  intros [rest ->]%starts_with_spec. rewrite length_app. lia.
Qed.

(** [includes] is the substring relation. *)
Lemma includes_spec s pat :
  includes s pat = true <-> exists pre post, s = pre ++ pat ++ post.
Proof.
  induction s as [|c s IH]; simpl.
  - rewrite orb_false_r, starts_with_spec. split.
    + intros [rest H]. by exists [], rest.
    + intros (pre & post & H). destruct pre; [by exists post | discriminate].
  - rewrite orb_true_iff, starts_with_spec, IH. split.
    + intros [[rest H] | (pre & post & ->)].
      * by exists [], rest.
      * by exists (c :: pre), post.
    + intros (pre & post & H). destruct pre as [|c' pre].
      * left. by exists post.
      * right. injection H as -> ->. by exists pre, post.
Qed.

Lemma occurrences_short pat s :
  (length s < length pat)%nat -> occurrences pat s = 0%nat.
Proof.
  induction s as [|c s IH]; simpl; intros Hlen.
  - destruct (starts_with pat []) eqn:E; [|done].
    apply starts_with_length in E. simpl in E. lia.
  - destruct (starts_with pat (c :: s)) eqn:E.
    + apply starts_with_length in E. simpl in E. lia.
    + rewrite IH; [done | lia].
Qed.

Lemma occurrences_none pat s :
  includes s pat = false <-> occurrences pat s = 0%nat.
Proof.
  induction s as [|c s IH]; simpl.
  - destruct (starts_with pat []); simpl; split; congruence.
  - destruct (starts_with pat (c :: s)); simpl; [split; congruence | apply IH].
Qed.

Lemma starts_with_refl pat : starts_with pat pat = true.
Proof. apply starts_with_spec. exists []. by rewrite app_nil_r. Qed.

Lemma occurrences_self pat : pat <> [] -> occurrences pat pat = 1%nat.
Proof.
  intros Hne. destruct pat as [|c pat]; [done|].
  cbn [occurrences]. rewrite starts_with_refl.
  rewrite occurrences_short; [done | simpl; lia].
Qed.

(** A pattern whose last code unit occurs nowhere else in it cannot overlap
    a shifted copy of itself: if it is found at the head of [old ++ pat],
    it lies within [old], unless [old] is empty. *)
Lemma starts_with_borderless body t old :
  t ∉ body ->
  starts_with (body ++ [t]) (old ++ body ++ [t]) = true ->
  old = [] \/ starts_with (body ++ [t]) old = true.
Proof.
  intros Hfresh [rest Heq]%starts_with_spec.
  destruct (decide (length (body ++ [t]) <= length old)%nat) as [Hle|Hgt].
  - right. apply starts_with_spec.
    exists (drop (length (body ++ [t])) old).
    apply (f_equal (take (length (body ++ [t])))) in Heq.
    rewrite take_app_le in Heq by done.
    rewrite take_app_length in Heq.
    rewrite <- (take_drop (length (body ++ [t])) old) at 1. by rewrite Heq.
  - destruct old as [|x old]; [by left | exfalso].
    rewrite length_app in Hgt. simpl in Hgt.
    apply (f_equal (fun l => l !! length body)) in Heq.
    rewrite <- (assoc_L app body [t] rest) in Heq.
    rewrite (lookup_app_r body) in Heq by lia.
    rewrite (lookup_app_r (x :: old)) in Heq by (simpl; lia).
    rewrite lookup_app_l in Heq by (simpl; lia).
    rewrite Nat.sub_diag in Heq.
    apply Hfresh. eapply list_elem_of_lookup_2, Heq.
Qed.

(** Appending such a pattern to a text that lacks it gives a text with
    exactly one occurrence. *)
Lemma occurrences_append_borderless body t old :
  t ∉ body ->
  includes old (body ++ [t]) = false ->
  occurrences (body ++ [t]) (old ++ body ++ [t]) = 1%nat.
Proof.
  intros Hfresh. induction old as [|x old IH]; intros Hnone.
  - simpl app at 2. apply occurrences_self. by destruct body.
  - simpl in Hnone. apply orb_false_iff in Hnone as [Hhead Htail].
    change ((x :: old) ++ body ++ [t]) with (x :: (old ++ body ++ [t])).
    cbn [occurrences]. rewrite (IH Htail).
    destruct (starts_with (body ++ [t]) (x :: old ++ body ++ [t])) eqn:E; [|done].
    apply (starts_with_borderless body t (x :: old)) in E as [E|E]; [done|congruence|done].
Qed.

(** The registry line ends in a line feed that occurs nowhere before it. *)
Lemma JSR_NPMRC_borderless :
  JSR_NPMRC = lit "@jsr:registry=https://npm.jsr.io" ++ [LF] /\
  LF ∉ lit "@jsr:registry=https://npm.jsr.io".
Proof.
  split; [reflexivity|].
  apply (bool_decide_unpack _). by vm_compute.
Qed.

Lemma JSR_NPMRC_appended_once content :
  includes content JSR_NPMRC = false ->
  occurrences JSR_NPMRC (content ++ JSR_NPMRC) = 1%nat.
Proof.
  destruct JSR_NPMRC_borderless as [-> Hfresh].
  by apply occurrences_append_borderless.
Qed.

(** ** The pattern of [setupBunfigToml] *)

Lemma strip_prefix_spec pat s r :
  strip_prefix pat s = Some r <-> s = pat ++ r.
Proof.
  revert s. induction pat as [|a pat IH]; intros s; simpl.
  - split; congruence.
  - destruct s as [|b s]; [split; discriminate|].
    destruct (N.eqb_spec a b) as [->|Hne].
    + rewrite IH. split; congruence.
    + split; [discriminate | intros H; congruence].
Qed.

Lemma skip_whitespace_split s :
  exists ws, s = ws ++ skip_whitespace s /\ Forall (fun c => is_whitespace c = true) ws.
Proof.
  induction s as [|c s (ws & Hs & Hws)]; simpl.
  - by exists [].
  - destruct (is_whitespace c) eqn:Ec.
    + exists (c :: ws). split; [simpl; congruence | by constructor].
    + by exists [].
Qed.

Lemma skip_whitespace_app ws s :
  Forall (fun c => is_whitespace c = true) ws ->
  skip_whitespace (ws ++ s) = skip_whitespace s.
Proof. induction 1 as [|c ws Hc _ IH]; simpl; [done | by rewrite Hc]. Qed.

Lemma match_here_spec s :
  match_here s = true <->
  exists ws post,
    s = MYORG1 ++ ws ++ [EQUALS] ++ post /\
    ws <> [] /\ Forall (fun c => is_whitespace c = true) ws.
Proof.
  unfold match_here. split.
  - destruct (strip_prefix MYORG1 s) as [[|c s']|] eqn:Estrip; try done.
    apply strip_prefix_spec in Estrip as ->.
    intros [Hc Hrest]%andb_true_iff.
    destruct (skip_whitespace_split s') as (ws & Hs' & Hws).
    destruct (skip_whitespace s') as [|e post]; [done|].
    apply N.eqb_eq in Hrest as ->.
    exists (c :: ws), post. split; [|split; [done | by constructor]].
    by rewrite Hs'.
  - intros (ws & post & -> & Hne & Hws).
    destruct ws as [|c ws]; [done|].
    apply Forall_cons in Hws as [Hc Hws].
    replace (strip_prefix MYORG1 (MYORG1 ++ (c :: ws) ++ [EQUALS] ++ post))
      with (Some (c :: ws ++ [EQUALS] ++ post)).
    2:{ symmetry. by apply strip_prefix_spec. }
    rewrite Hc, skip_whitespace_app by done. reflexivity.
Qed.

Lemma scan_spec bol s :
  scan bol s = true <->
  exists pre rest,
    s = pre ++ rest /\ match_here rest = true /\
    (pre = [] /\ bol = true \/
     exists pre' c, pre = pre' ++ [c] /\ is_line_terminator c = true).
Proof.
  revert bol. induction s as [|x s IH]; intros bol; simpl.
  - rewrite orb_false_r, andb_true_iff. split.
    + intros [-> H]. exists [], []. auto.
    + intros (pre & rest & Heq & Hm & Hpre).
      symmetry in Heq. apply app_eq_nil in Heq as [-> ->].
      destruct Hpre as [[_ ->] | (pre' & c & Hp & _)]; [done | by destruct pre'].
  - rewrite orb_true_iff, andb_true_iff, IH. split.
    + intros [[-> H] | (pre & rest & -> & Hm & Hpre)].
      * exists [], (x :: s). auto.
      * exists (x :: pre), rest. split; [done|]. split; [done|]. right.
        destruct Hpre as [[-> Hx] | (pre' & c & -> & Hc)].
        -- by exists [], x.
        -- by exists (x :: pre'), c.
    + intros (pre & rest & Heq & Hm & Hpre).
      destruct pre as [|y pre].
      * left. simpl in Heq. subst rest.
        destruct Hpre as [[_ ->] | (pre' & c & Hp & _)]; [done | by destruct pre'].
      * right. injection Heq as -> ->. exists pre, rest.
        split; [done|]. split; [done|].
        destruct Hpre as [[? _] | (pre' & c & Hp & Hc)]; [done|].
        destruct pre' as [|z pre'].
        -- left. injection Hp as -> ->. done.
        -- right. injection Hp as -> ->. by exists pre', c.
Qed.

(** The test of [setupBunfigToml] holds exactly of the texts with a line
    that begins with ["@myorg1"], white space and [=]. *)
Lemma myorg1_test_spec content :
  myorg1_test content = true <-> has_myorg1_line content.
Proof.
  unfold myorg1_test, has_myorg1_line. rewrite scan_spec. split.
  - intros (pre & rest & -> & (ws & post & -> & Hne & Hws)%match_here_spec & Hpre).
    exists pre, ws, post. split; [done|]. split; [|done].
    destruct Hpre as [[-> _] | H]; auto.
  - intros (pre & ws & post & -> & Hpre & Hne & Hws).
    exists pre, (MYORG1 ++ ws ++ [EQUALS] ++ post). split; [done|]. split.
    + apply match_here_spec. by exists ws, post.
    + destruct Hpre as [-> | H]; auto.
Qed.

(** *** The pattern after [JSR_BUNFIG] has been appended *)

(** A literal none of whose code units is [h] cannot run over into a text
    that starts with [h]. *)
Lemma strip_prefix_app_fresh pat h tail s :
  Forall (fun a => a <> h) pat ->
  strip_prefix pat (s ++ h :: tail) =
  (fun r => r ++ h :: tail) <$> strip_prefix pat s.
Proof.
  intros Hfresh. revert s.
  induction Hfresh as [|a pat Ha _ IH]; intros s; [reflexivity|].
  destruct s as [|b s]; simpl.
  - by destruct (N.eqb_spec a h).
  - destruct (a =? b); [apply IH | reflexivity].
Qed.

Lemma skip_whitespace_app_stop s h tail :
  is_whitespace h = false ->
  skip_whitespace (s ++ h :: tail) = skip_whitespace s ++ h :: tail.
Proof.
  intros Hh. induction s as [|c s IH]; simpl.
  - by rewrite Hh.
  - by destruct (is_whitespace c).
Qed.

Lemma match_here_app_JSR_BUNFIG s :
  match_here (s ++ JSR_BUNFIG) = match_here s.
Proof.
  unfold match_here.
  change JSR_BUNFIG with (91 :: tl JSR_BUNFIG).
  rewrite strip_prefix_app_fresh
    by (apply (bool_decide_unpack _); by vm_compute).
  destruct (strip_prefix MYORG1 s) as [[|c r]|]; simpl; [reflexivity| |reflexivity].
  rewrite skip_whitespace_app_stop by reflexivity.
  destruct (skip_whitespace r); simpl; [|reflexivity].
  by rewrite andb_false_r.
Qed.

Lemma scan_app_JSR_BUNFIG bol s :
  scan bol (s ++ JSR_BUNFIG) = scan bol s.
Proof.
  revert bol. induction s as [|c s IH]; intros bol.
  - by destruct bol.
  - change ((c :: s) ++ JSR_BUNFIG) with (c :: (s ++ JSR_BUNFIG)).
    cbn [scan]. rewrite IH.
    change (c :: (s ++ JSR_BUNFIG)) with ((c :: s) ++ JSR_BUNFIG).
    by rewrite match_here_app_JSR_BUNFIG.
Qed.

(** Appending the block that [setupBunfigToml] writes never makes its own
    test pass. *)
Lemma myorg1_test_after_append content :
  myorg1_test (content ++ JSR_BUNFIG) = myorg1_test content.
Proof. apply scan_app_JSR_BUNFIG. Qed.

(** ** The commands *)

Section CommandProperties.

Variable path_join : list jsstring -> jsstring.
Variable platform : jsstring.
Variables green red : jsstring -> jsstring.

Local Abbreviation wrapWithStatus := (wrapWithStatus green red).
Local Abbreviation setupNpmRc := (setupNpmRc path_join green red).
Local Abbreviation setupBunfigToml := (setupBunfigToml path_join green red).
Local Abbreviation publish := (publish path_join platform).
Local Abbreviation binPath_of := (binPath_of path_join platform).
Local Abbreviation status_line := (status_line green red).

(** *** [wrapWithStatus] *)

Lemma wrapWithStatus_run msg fn w :
  wrapWithStatus msg fn w =
  let settled := fn (emit (Stdout (msg ++ lit "...")) w) in
  (fst settled, emit (Stdout (status_line (fst settled))) (snd settled)).
Proof using Type.
  unfold wrapWithStatus. run_monad.
  destruct (fn _) as [[[]|err] w']; reflexivity.
Qed.

(** C8.  [wrapWithStatus(label, action)] writes [label...] to the standard
    output, then runs the action in the world so obtained.  When the action
    returns, it writes the (green) [ok] line and returns; when the action
    throws [err], it writes the (red) [error] line and throws that same
    [err].  Hence its outcome is the outcome of the action: it throws
    exactly when the action does, and nothing is swallowed. *)
Theorem wrapWithStatus_reports_and_rethrows (msg : jsstring) (fn : M unit) (w : World) :
  let started := emit (Stdout (msg ++ lit "...")) w in
  trace started = trace w ++ [Stdout (msg ++ lit "...")] /\
  match fn started with
  | (Ok _, w') =>
      wrapWithStatus msg fn w = (Ok tt, emit (Stdout (green (lit "ok") ++ [LF])) w')
  | (Throw err, w') =>
      wrapWithStatus msg fn w = (Throw err, emit (Stdout (red (lit "error") ++ [LF])) w')
  end /\
  fst (wrapWithStatus msg fn w) = fst (fn started).
Proof using Type.
  intros started. split; [reflexivity|].
  rewrite wrapWithStatus_run. fold started.
  destruct (fn started) as [[[]|err] w']; simpl; auto.
Qed.

(** *** [setupNpmRc] *)

(** The call when the read is answered by [r]. *)
Lemma setupNpmRc_after_read dir w :
  let p := path_join [dir; NPMRC_FILE] in
  let msg := lit "Setting up " ++ NPMRC_FILE in
  let w1 := emit (ReadFile p) w in
  setupNpmRc dir w =
  match fst (readFile p w) with
  | Ok content =>
      if includes content JSR_NPMRC then (Ok tt, w1)
      else
        match wrapWithStatus msg (writeFile p (content ++ JSR_NPMRC)) w1 with
        | (Throw err, w2) =>
            if is_ENOENT err then wrapWithStatus msg (writeFile p JSR_NPMRC) w2
            else (Throw err, w2)
        | settled => settled
        end
  | Throw err =>
      if is_ENOENT err then wrapWithStatus msg (writeFile p JSR_NPMRC) w1
      else (Throw err, w1)
  end.
Proof using Type.
  intros p msg w1. unfold setupNpmRc. fold p. fold msg.
  unfold try_catch at 1. unfold bind at 1.
  rewrite (readFile_eq p w). fold w1. simpl.
  destruct (fst (readFile p w)) as [content|err];
    [|by destruct (is_ENOENT err)].
  destruct (includes content JSR_NPMRC); simpl; [reflexivity|].
  destruct (wrapWithStatus msg _ w1) as [[[]|err] w2];
    [reflexivity | by destruct (is_ENOENT err)].
Qed.

(** One status-wrapped write, spelled out. *)
Lemma wrapped_write msg p content w :
  wrapWithStatus msg (writeFile p content) w =
  let w1 := emit (WriteFile p content) (emit (Stdout (msg ++ lit "...")) w) in
  match write_fault w p with
  | None => (Ok tt, emit (Stdout (green (lit "ok") ++ [LF])) (store p content w1))
  | Some err => (Throw err, emit (Stdout (red (lit "error") ++ [LF])) w1)
  end.
Proof using Type.
  rewrite wrapWithStatus_run. unfold writeFile. simpl.
  destruct (write_fault w p); reflexivity.
Qed.

(** C5.  When the read of [<dir>/.npmrc] fails with ENOENT, [setupNpmRc]
    announces the set-up and writes one file, [<dir>/.npmrc], whose content
    is [JSR_NPMRC] and nothing else.  If the file system accepts the write
    the call returns and the file holds exactly [JSR_NPMRC], every other
    file being as before; if it refuses, the refusal is thrown and no file
    has changed. *)
Theorem setupNpmRc_creates_missing_file (dir : jsstring) (w : World) (err : thrown) :
  let p := path_join [dir; NPMRC_FILE] in
  fst (readFile p w) = Throw err ->
  is_ENOENT err = true ->
  match write_fault w p with
  | None =>
      fst (setupNpmRc dir w) = Ok tt /\
      new_events (setupNpmRc dir) w =
        [ReadFile p; Stdout (lit "Setting up .npmrc...");
         WriteFile p JSR_NPMRC; Stdout (green (lit "ok") ++ [LF])] /\
      files (snd (setupNpmRc dir w)) = <[p := JSR_NPMRC]> (files w) /\
      files (snd (setupNpmRc dir w)) !! p = Some JSR_NPMRC
  | Some refusal =>
      fst (setupNpmRc dir w) = Throw refusal /\
      new_events (setupNpmRc dir) w =
        [ReadFile p; Stdout (lit "Setting up .npmrc...");
         WriteFile p JSR_NPMRC; Stdout (red (lit "error") ++ [LF])] /\
      files (snd (setupNpmRc dir w)) = files w
  end.
Proof using Type.
  intros p Hread Henoent. unfold new_events.
  rewrite setupNpmRc_after_read. fold p. cbv zeta.
  rewrite Hread, Henoent, wrapped_write. cbv zeta.
  change (write_fault (emit (ReadFile p) w) p) with (write_fault w p).
  destruct (write_fault w p) as [refusal|].
  - split; [done|]. split; [read_events | done].
  - split; [done|]. split; [read_events | simpl].
    split; [done|]. apply lookup_insert_eq.
Qed.

(** C6.  When [<dir>/.npmrc] is read and its text contains [JSR_NPMRC],
    [setupNpmRc] returns having done nothing but that read: no write is
    issued, nothing is printed, and every file is as before. *)
Theorem setupNpmRc_leaves_configured_file (dir : jsstring) (w : World) (content : jsstring) :
  let p := path_join [dir; NPMRC_FILE] in
  fst (readFile p w) = Ok content ->
  includes content JSR_NPMRC = true ->
  setupNpmRc dir w = (Ok tt, emit (ReadFile p) w) /\
  new_events (setupNpmRc dir) w = [ReadFile p] /\
  files (snd (setupNpmRc dir w)) = files w.
Proof using Type.
  intros p Hread Hin.
  assert (setupNpmRc dir w = (Ok tt, emit (ReadFile p) w)) as Hrun.
  { rewrite setupNpmRc_after_read. fold p. cbv zeta. by rewrite Hread, Hin. }
  split; [done|]. split.
  - unfold new_events. rewrite Hrun. read_events.
  - by rewrite Hrun.
Qed.

(** C7.  When [<dir>/.npmrc] is read and its text lacks [JSR_NPMRC],
    [setupNpmRc] rewrites the whole file as the old text followed by
    [JSR_NPMRC].  The old text has no occurrence of the line and the new
    text has exactly one.  (If the file system refuses the write, the
    refusal is thrown and no file has changed.) *)
Theorem setupNpmRc_appends_line_once (dir : jsstring) (w : World) (content : jsstring) :
  let p := path_join [dir; NPMRC_FILE] in
  fst (readFile p w) = Ok content ->
  includes content JSR_NPMRC = false ->
  occurrences JSR_NPMRC content = 0%nat /\
  occurrences JSR_NPMRC (content ++ JSR_NPMRC) = 1%nat /\
  match write_fault w p with
  | None =>
      fst (setupNpmRc dir w) = Ok tt /\
      new_events (setupNpmRc dir) w =
        [ReadFile p; Stdout (lit "Setting up .npmrc...");
         WriteFile p (content ++ JSR_NPMRC); Stdout (green (lit "ok") ++ [LF])] /\
      files (snd (setupNpmRc dir w)) = <[p := content ++ JSR_NPMRC]> (files w) /\
      files (snd (setupNpmRc dir w)) !! p = Some (content ++ JSR_NPMRC)
  | Some refusal =>
      fst (setupNpmRc dir w) = Throw refusal /\
      files (snd (setupNpmRc dir w)) = files w
  end.
Proof using Type.
  intros p Hread Hnone.
  split; [by apply occurrences_none|].
  split; [by apply JSR_NPMRC_appended_once|]. unfold new_events.
  rewrite setupNpmRc_after_read. fold p. cbv zeta.
  rewrite Hread, Hnone, wrapped_write. cbv zeta.
  change (write_fault (emit (ReadFile p) w) p) with (write_fault w p).
  destruct (write_fault w p) as [refusal|] eqn:Hw.
  - destruct (is_ENOENT refusal); [|by split].
    rewrite wrapped_write. cbv zeta. simpl. rewrite Hw. by split.
  - split; [done|]. split; [read_events|]. simpl.
    split; [done|]. apply lookup_insert_eq.
Qed.

(** C2 (amended).  The line that [setupNpmRc] writes is [JSR_NPMRC], the
    literal [@jsr:registry=https://npm.jsr.io] followed by a line feed: the
    registry URL carries no slash after the host.  Path by path:
    - the read fails with ENOENT (the file is created): the one write
      stores exactly [JSR_NPMRC];
    - the read gives a text that lacks the line (the append): the write
      stores that text followed by [JSR_NPMRC];
    - the read gives a text with the line, or fails otherwise: no write.
    Every write goes to [<dir>/.npmrc].  On a path whose writes are
    accepted the file ends up holding what was written; on a path whose
    writes are refused no file changes (and a refusal of the append with
    ENOENT is followed by the write that creates the file). *)
Theorem setupNpmRc_writes_unslashed_line (dir : jsstring) (w : World) :
  let p := path_join [dir; NPMRC_FILE] in
  let announce := Stdout (lit "Setting up .npmrc...") in
  let ok := Stdout (green (lit "ok") ++ [LF]) in
  let failed := Stdout (red (lit "error") ++ [LF]) in
  let after := snd (setupNpmRc dir w) in
  JSR_NPMRC = lit "@jsr:registry=https://npm.jsr.io" ++ [LF] /\
  includes JSR_NPMRC SLASHED_NPMRC_LINE = false /\
  Forall (npmrc_write_expected p w) (new_events (setupNpmRc dir) w) /\
  match fst (readFile p w) with
  | Throw err =>
      if is_ENOENT err then
        match write_fault w p with
        | None =>
            new_events (setupNpmRc dir) w =
              [ReadFile p; announce; WriteFile p JSR_NPMRC; ok] /\
            files after = <[p := JSR_NPMRC]> (files w)
        | Some _ =>
            new_events (setupNpmRc dir) w =
              [ReadFile p; announce; WriteFile p JSR_NPMRC; failed] /\
            files after = files w
        end
      else
        new_events (setupNpmRc dir) w = [ReadFile p] /\ files after = files w
  | Ok content =>
      if includes content JSR_NPMRC then
        new_events (setupNpmRc dir) w = [ReadFile p] /\ files after = files w
      else
        match write_fault w p with
        | None =>
            new_events (setupNpmRc dir) w =
              [ReadFile p; announce; WriteFile p (content ++ JSR_NPMRC); ok] /\
            files after = <[p := content ++ JSR_NPMRC]> (files w)
        | Some refusal =>
            new_events (setupNpmRc dir) w =
              [ReadFile p; announce; WriteFile p (content ++ JSR_NPMRC); failed]
              ++ (if is_ENOENT refusal
                  then [announce; WriteFile p JSR_NPMRC; failed]
                  else []) /\
            files after = files w
        end
  end.
Proof using Type.
  intros p announce ok failed after.
  split; [reflexivity|]. split; [reflexivity|].
  assert (forall evs, Forall (npmrc_write_expected p w) evs ->
            forall ev, npmrc_write_expected p w ev ->
            Forall (npmrc_write_expected p w) (ev :: evs)) as Hcons
    by (intros; by constructor).
  assert (forall old, fst (readFile p w) = Ok old ->
            npmrc_write_expected p w (WriteFile p (old ++ JSR_NPMRC))) as Happend
    by (intros old Hold; simpl; eauto).
  assert (npmrc_write_expected p w (WriteFile p JSR_NPMRC)) as Hcreate
    by (simpl; auto).
  unfold after, new_events. rewrite setupNpmRc_after_read. fold p. cbv zeta.
  destruct (fst (readFile p w)) as [content|err] eqn:Hread.
  - destruct (includes content JSR_NPMRC).
    + split; [read_events; by repeat constructor|]. split; [read_events | done].
    + rewrite wrapped_write. cbv zeta.
      change (write_fault (emit (ReadFile p) w) p) with (write_fault w p).
      destruct (write_fault w p) as [refusal|] eqn:Hw.
      * destruct (is_ENOENT refusal).
        -- rewrite wrapped_write. cbv zeta. simpl. rewrite Hw.
           split; [|split; [read_events | done]].
           read_events. repeat (apply Hcons; [|by auto]). constructor.
        -- split; [|split; [read_events | done]].
           read_events. repeat (apply Hcons; [|by auto]). constructor.
      * split; [|split; [read_events | done]].
        read_events. repeat (apply Hcons; [|by auto]). constructor.
  - destruct (is_ENOENT err).
    + rewrite wrapped_write. cbv zeta.
      change (write_fault (emit (ReadFile p) w) p) with (write_fault w p).
      destruct (write_fault w p);
        (split; [|split; [read_events | done]]);
        read_events; repeat (apply Hcons; [|by auto]); constructor.
    + split; [read_events; by repeat constructor|]. split; [read_events | done].
Qed.

(** *** [setupBunfigToml] *)

Lemma setupBunfigToml_after_read dir w :
  let p := path_join [dir; BUNFIG_FILE] in
  let msg := lit "Setting up " ++ BUNFIG_FILE in
  let w1 := emit (ReadFile p) w in
  setupBunfigToml dir w =
  match fst (readFile p w) with
  | Ok content =>
      if myorg1_test content then (Ok tt, w1)
      else
        match wrapWithStatus msg (writeFile p (content ++ JSR_BUNFIG)) w1 with
        | (Throw err, w2) =>
            if is_ENOENT err then wrapWithStatus msg (writeFile p JSR_BUNFIG) w2
            else (Throw err, w2)
        | settled => settled
        end
  | Throw err =>
      if is_ENOENT err then wrapWithStatus msg (writeFile p JSR_BUNFIG) w1
      else (Throw err, w1)
  end.
Proof using Type.
  intros p msg w1. unfold setupBunfigToml. fold p. fold msg.
  unfold try_catch at 1. unfold bind at 1.
  rewrite (readFile_eq p w). fold w1. simpl.
  destruct (fst (readFile p w)) as [content|err];
    [|by destruct (is_ENOENT err)].
  destruct (myorg1_test content); simpl; [reflexivity|].
  destruct (wrapWithStatus msg _ w1) as [[[]|err] w2];
    [reflexivity | by destruct (is_ENOENT err)].
Qed.

(** C9.  When [bunfig.toml] is read and its text has a line that begins
    with ["@myorg1"], white space and [=], [setupBunfigToml] returns having
    done nothing but that read: no write is issued and every file is as
    before.  Nothing is asked about the ["@jsr"] block, which may be
    absent. *)
Theorem setupBunfigToml_skips_on_myorg1_line (dir : jsstring) (w : World) (content : jsstring) :
  let p := path_join [dir; BUNFIG_FILE] in
  fst (readFile p w) = Ok content ->
  has_myorg1_line content ->
  setupBunfigToml dir w = (Ok tt, emit (ReadFile p) w) /\
  new_events (setupBunfigToml dir) w = [ReadFile p] /\
  files (snd (setupBunfigToml dir w)) = files w.
Proof using Type.
  intros p Hread Hline%myorg1_test_spec.
  assert (setupBunfigToml dir w = (Ok tt, emit (ReadFile p) w)) as Hrun.
  { rewrite setupBunfigToml_after_read. fold p. cbv zeta. by rewrite Hread, Hline. }
  split; [done|]. split.
  - unfold new_events. rewrite Hrun. read_events.
  - by rewrite Hrun.
Qed.

(** One call on a file system that refuses nothing, when the file is
    missing or has no ["@myorg1"] line: the block is appended to what was
    there. *)
Lemma setupBunfigToml_appends dir w :
  let p := path_join [dir; BUNFIG_FILE] in
  let old := default [] (files w !! p) in
  read_fault w p = None ->
  write_fault w p = None ->
  myorg1_test old = false ->
  let after := snd (setupBunfigToml dir w) in
  files after = <[p := old ++ JSR_BUNFIG]> (files w) /\
  read_fault after = read_fault w /\
  write_fault after = write_fault w.
Proof using Type.
  intros p old Hr Hw Htest after. unfold after.
  rewrite setupBunfigToml_after_read. fold p. cbv zeta.
  unfold old in *. destruct (files w !! p) as [content|] eqn:Hf; simpl in Htest.
  - rewrite (readFile_present p w content Hr Hf), Htest, wrapped_write.
    cbv zeta. simpl. by rewrite Hw.
  - destruct (readFile_missing p w Hr Hf) as [-> ->].
    rewrite wrapped_write. cbv zeta. simpl. by rewrite Hw.
Qed.

(** C1 (the code departs from the claim).  On a file system that refuses
    nothing, take a directory whose [bunfig.toml] is missing, or has no line
    beginning with ["@myorg1"], white space and [=]; write [old] for its
    text (empty when missing).  The first call leaves [old ++ JSR_BUNFIG];
    the second call finds no ["@myorg1"] line either and appends again,
    leaving [old ++ JSR_BUNFIG ++ JSR_BUNFIG].  Two calls do not leave what
    one call leaves. *)
Theorem setupBunfigToml_second_call_appends_again (dir : jsstring) (w : World) :
  let p := path_join [dir; BUNFIG_FILE] in
  let old := default [] (files w !! p) in
  read_fault w p = None ->
  write_fault w p = None ->
  myorg1_test old = false ->
  let once := snd (setupBunfigToml dir w) in
  let twice := snd (setupBunfigToml dir once) in
  files once !! p = Some (old ++ JSR_BUNFIG) /\
  files twice !! p = Some (old ++ JSR_BUNFIG ++ JSR_BUNFIG) /\
  files twice <> files once.
Proof using Type.
  intros p old Hr Hw Htest once twice.
  destruct (setupBunfigToml_appends dir w Hr Hw Htest) as (Hf1 & Hr1 & Hw1).
  fold p old once in Hf1, Hr1, Hw1.
  assert (files once !! p = Some (old ++ JSR_BUNFIG)) as Honce.
  { rewrite Hf1. apply lookup_insert_eq. }
  destruct (setupBunfigToml_appends dir once) as (Hf2 & _ & _).
  { fold p. by rewrite Hr1. }
  { fold p. by rewrite Hw1. }
  { fold p. rewrite Honce. simpl. by rewrite myorg1_test_after_append. }
  fold p twice in Hf2. rewrite Honce in Hf2. simpl in Hf2.
  assert (files twice !! p = Some (old ++ JSR_BUNFIG ++ JSR_BUNFIG)) as Htwice.
  { rewrite Hf2, <- app_assoc. apply lookup_insert_eq. }
  split; [done|]. split; [done|].
  intros Heq. rewrite Heq, Honce in Htwice.
  injection Htwice as Htwice. apply app_inv_head in Htwice.
  apply (f_equal length) in Htwice. by vm_compute in Htwice.
Qed.

(** *** [publish] *)

(** The argument list, flag by flag. *)
Lemma publish_args_flags (options : PublishOptions) :
  publish_args options =
    [lit "publish"; lit "--unstable-bare-node-builtins"; lit "--unstable-sloppy-imports"]
    ++ (if dryRun options then [lit "--dry-run"] else [])
    ++ (if allowSlowTypes options then [lit "--allow-slow-types"] else [])
    ++ match token options with
       | Some (c :: value) => [lit "--token"; c :: value]
       | Some [] | None => []
       end.
Proof using Type.
  unfold publish_args.
  destruct (dryRun options), (allowSlowTypes options),
    (token options) as [[|c value]|]; reflexivity.
Qed.

(** [publish] once the descriptor is resolved and the cache is probed. *)
Lemma publish_after_probe cwd options w info :
  download_url w = Ok info ->
  let bin := binPath_of options info in
  let w2 := emit (FileExists bin) (emit GetDenoDownloadUrl w) in
  publish cwd options w =
  if exists_answer w bin then exec bin (publish_args options) cwd w2
  else
    let w3 := emit (Rm (binFolder options) true) w2 in
    match rm_fault w (binFolder options) with
    | Some err =>
        if is_ENOENT err
        then (downloadDeno bin info ;; exec bin (publish_args options) cwd) w3
        else (Throw err, w3)
    | None => (downloadDeno bin info ;; exec bin (publish_args options) cwd) w3
    end.
Proof using Type.
  intros Hurl bin w2. unfold publish.
  unfold bind at 1, getDenoDownloadUrl. rewrite Hurl.
  unfold bind at 1, fileExists. simpl. fold bin.
  destruct (exists_answer w bin); simpl.
  - unfold bind at 1, ret. reflexivity.
  - unfold bind at 1. unfold bind at 1. unfold try_catch, rm. simpl.
    destruct (rm_fault w (binFolder options)) as [err|]; simpl.
    + rewrite not_ENOENT_guard.
      destruct (is_ENOENT err); simpl; reflexivity.
    + unfold ret. reflexivity.
Qed.

(** Whatever the environment answers, each subprocess that [publish] starts
    gets [publish_args] and the caller's working directory. *)
Lemma publish_exec_events cwd options w :
  Forall (fun ev => match ev with
                    | Exec _ args dir => args = publish_args options /\ dir = cwd
                    | _ => True
                    end)
         (new_events (publish cwd options) w).
Proof using Type.
  unfold new_events.
  destruct (download_url w) as [info|err] eqn:Hurl.
  - rewrite (publish_after_probe cwd options w info Hurl). cbv zeta.
    set (bin := binPath_of options info).
    destruct (exists_answer w bin).
    + unfold exec. simpl. destruct (exec_fault w _ _ _); read_events;
        by repeat constructor.
    + assert (Forall (fun ev => match ev with
                    | Exec _ args dir => args = publish_args options /\ dir = cwd
                    | _ => True
                    end)
                (drop (length (trace w))
                   (trace (snd ((downloadDeno bin info ;; exec bin (publish_args options) cwd)
                      (emit (Rm (binFolder options) true)
                         (emit (FileExists bin) (emit GetDenoDownloadUrl w)))))))) as Hgo.
      { run_monad. destruct (download_fault w bin info); simpl;
          [read_events; by repeat constructor|].
        destruct (exec_fault w _ _ _); read_events; by repeat constructor. }
      destruct (rm_fault w (binFolder options)) as [err|]; [|exact Hgo].
      destruct (is_ENOENT err); [exact Hgo|].
      read_events. by repeat constructor.
  - unfold publish, bind at 1, getDenoDownloadUrl. rewrite Hurl.
    read_events. by repeat constructor.
Qed.

(** C3.  When the download descriptor is resolved and the executable is
    already at the computed path, [publish] deletes nothing and downloads
    nothing: after resolving the descriptor and probing the path, the one
    thing it does is to start the executable in [cwd], with the arguments
    [publish --unstable-bare-node-builtins --unstable-sloppy-imports]
    followed, in this order, by [--dry-run] iff [dryRun], by
    [--allow-slow-types] iff [allowSlowTypes], and by [--token <value>] iff
    a token is supplied, that is, iff [token] is a string with at least one
    code unit (what [if (options.token)] tests).  It returns or throws as
    the subprocess does. *)
Theorem publish_with_cached_binary
    (cwd : jsstring) (options : PublishOptions) (w : World) (info : DownloadInfo) :
  let bin := binPath_of options info in
  download_url w = Ok info ->
  exists_answer w bin = true ->
  let args :=
    [lit "publish"; lit "--unstable-bare-node-builtins"; lit "--unstable-sloppy-imports"]
    ++ (if dryRun options then [lit "--dry-run"] else [])
    ++ (if allowSlowTypes options then [lit "--allow-slow-types"] else [])
    ++ match token options with
       | Some (c :: value) => [lit "--token"; c :: value]
       | Some [] | None => []
       end in
  new_events (publish cwd options) w =
    [GetDenoDownloadUrl; FileExists bin; Exec bin args cwd] /\
  fst (publish cwd options w) = fst (of_fault (exec_fault w bin args cwd) w).
Proof using Type.
  intros bin Hurl Hcached args.
  assert (args = publish_args options) as -> by (symmetry; apply publish_args_flags).
  unfold new_events.
  rewrite (publish_after_probe cwd options w info Hurl). cbv zeta.
  fold bin. rewrite Hcached. unfold exec. simpl.
  destruct (exec_fault w bin (publish_args options) cwd); simpl.
  - split; [read_events | done].
  - split; [read_events | done].
Qed.

(** C4.  When the download descriptor is resolved and the executable is not
    at the computed path, [publish] next asks for the recursive deletion of
    [binFolder].  If the deletion succeeds, or is rejected with an [Error]
    whose code is ENOENT, the rejection is dropped and [publish] goes on
    with the download to the computed path (and then the subprocess).  If
    it is rejected with anything else, [publish] throws that very value at
    once: nothing is downloaded and nothing is started. *)
Theorem publish_clears_cache_before_download
    (cwd : jsstring) (options : PublishOptions) (w : World) (info : DownloadInfo) :
  let bin := binPath_of options info in
  download_url w = Ok info ->
  exists_answer w bin = false ->
  let w3 := emit (Rm (binFolder options) true)
              (emit (FileExists bin) (emit GetDenoDownloadUrl w)) in
  let proceeds :=
    publish cwd options w =
      (downloadDeno bin info ;; exec bin (publish_args options) cwd) w3 /\
    take 4 (new_events (publish cwd options) w) =
      [GetDenoDownloadUrl; FileExists bin; Rm (binFolder options) true;
       DownloadDeno bin info] in
  match rm_fault w (binFolder options) with
  | None => proceeds
  | Some err =>
      if is_ENOENT err then proceeds
      else
        publish cwd options w = (Throw err, w3) /\
        new_events (publish cwd options) w =
          [GetDenoDownloadUrl; FileExists bin; Rm (binFolder options) true]
  end.
Proof using Type.
  intros bin Hurl Habsent w3 proceeds.
  assert (publish cwd options w =
            (downloadDeno bin info ;; exec bin (publish_args options) cwd) w3 ->
          proceeds) as Hgo.
  { intros Hrun. split; [done|]. unfold new_events. rewrite Hrun.
    unfold w3. run_monad.
    destruct (download_fault w bin info); simpl; [by read_events|].
    destruct (exec_fault w _ _ _); by read_events. }
  pose proof (publish_after_probe cwd options w info Hurl) as Hrun.
  cbv zeta in Hrun. fold bin in Hrun. rewrite Habsent in Hrun. fold w3 in Hrun.
  destruct (rm_fault w (binFolder options)) as [err|]; [|by apply Hgo].
  destruct (is_ENOENT err); [by apply Hgo|].
  split; [done|]. unfold new_events. rewrite Hrun. unfold w3. read_events.
Qed.

(** C10.  When [token] is the empty string, the argument list has no
    [--token] flag, and so no subprocess that [publish] starts receives
    one, whatever the environment answers. *)
Theorem publish_empty_token_no_flag
    (cwd : jsstring) (options : PublishOptions) (w : World) :
  token options = Some [] ->
  (lit "--token" ∉ publish_args options) /\
  Forall (fun ev => match ev with
                    | Exec _ args _ => lit "--token" ∉ args
                    | _ => True
                    end)
         (new_events (publish cwd options) w).
Proof using Type.
  intros Hempty.
  assert (lit "--token" ∉ publish_args options) as Hnone.
  { rewrite publish_args_flags, Hempty.
    destruct (dryRun options), (allowSlowTypes options);
      apply (bool_decide_unpack _); by vm_compute. }
  split; [done|].
  eapply Forall_impl; [apply publish_exec_events|].
  intros [] H; try done. by destruct H as [-> _].
Qed.

End CommandProperties.

(** * The properties at work *)

(** C5 on a fresh project directory. *)
Lemma setupNpmRc_creates_missing_file_witness :
  fst (readFile npmrc_path fresh_world) = Throw (enoent_error npmrc_path) /\
  is_ENOENT (enoent_error npmrc_path) = true /\
  files (snd (setupNpmRc slash_join plain plain sample_dir fresh_world)) !! npmrc_path
    = Some JSR_NPMRC.
Proof.
  pose proof (setupNpmRc_creates_missing_file slash_join plain plain
                sample_dir fresh_world (enoent_error npmrc_path)
                eq_refl eq_refl) as H.
  simpl in H. destruct H as (_ & _ & _ & Hfile).
  split; [reflexivity|]. split; [reflexivity|]. exact Hfile.
Defined.

(** C6 on an [.npmrc] that has the line between two others. *)
Lemma setupNpmRc_leaves_configured_file_witness :
  includes configured_npmrc JSR_NPMRC = true /\
  files (snd (setupNpmRc slash_join plain plain sample_dir
                (with_file npmrc_path configured_npmrc fresh_world)))
    = files (with_file npmrc_path configured_npmrc fresh_world).
Proof.
  split; [reflexivity|].
  apply (setupNpmRc_leaves_configured_file slash_join plain plain sample_dir
           (with_file npmrc_path configured_npmrc fresh_world) configured_npmrc);
    reflexivity.
Defined.

(** C7 on an [.npmrc] with one unrelated line. *)
Lemma setupNpmRc_appends_line_once_witness :
  includes unconfigured_npmrc JSR_NPMRC = false /\
  occurrences JSR_NPMRC (unconfigured_npmrc ++ JSR_NPMRC) = 1%nat /\
  files (snd (setupNpmRc slash_join plain plain sample_dir
                (with_file npmrc_path unconfigured_npmrc fresh_world))) !! npmrc_path
    = Some (unconfigured_npmrc ++ JSR_NPMRC).
Proof.
  pose proof (setupNpmRc_appends_line_once slash_join plain plain sample_dir
                (with_file npmrc_path unconfigured_npmrc fresh_world)
                unconfigured_npmrc eq_refl eq_refl) as H.
  simpl in H. destruct H as (_ & Hone & _ & _ & _ & Hfile).
  split; [reflexivity|]. split; [exact Hone | exact Hfile].
Defined.

(** C9 on a [bunfig.toml] that declares ["@myorg1"] only: nothing is
    written although the ["@jsr"] block is absent. *)
Lemma setupBunfigToml_skips_on_myorg1_line_witness :
  has_myorg1_line myorg1_bunfig /\
  includes myorg1_bunfig JSR_BUNFIG = false /\
  new_events (setupBunfigToml slash_join plain plain sample_dir)
             (with_file bunfig_path myorg1_bunfig fresh_world)
    = [ReadFile bunfig_path] /\
  files (snd (setupBunfigToml slash_join plain plain sample_dir
                (with_file bunfig_path myorg1_bunfig fresh_world)))
    = files (with_file bunfig_path myorg1_bunfig fresh_world).
Proof.
  assert (has_myorg1_line myorg1_bunfig) as Hline.
  { exists (lit "[install.scopes]" ++ [LF]), (lit " "),
      (lit " " ++ [DQUOTE] ++ lit "https://registry.myorg1.example/" ++ [DQUOTE] ++ [LF]).
    split; [reflexivity|]. split.
    - right. by exists (lit "[install.scopes]"), LF.
    - split; [done | by repeat constructor]. }
  split; [exact Hline|]. split; [reflexivity|].
  apply (setupBunfigToml_skips_on_myorg1_line slash_join plain plain sample_dir
           (with_file bunfig_path myorg1_bunfig fresh_world) myorg1_bunfig eq_refl Hline).
Defined.

(** C1 on a fresh project directory: one call leaves the block once, two
    calls leave it twice. *)
Lemma setupBunfigToml_second_call_appends_again_witness :
  files fresh_world !! bunfig_path = None /\
  files (snd (setupBunfigToml slash_join plain plain sample_dir fresh_world)) !! bunfig_path
    = Some JSR_BUNFIG /\
  files (snd (setupBunfigToml slash_join plain plain sample_dir
                (snd (setupBunfigToml slash_join plain plain sample_dir fresh_world))))
    !! bunfig_path
    = Some (JSR_BUNFIG ++ JSR_BUNFIG).
Proof.
  pose proof (setupBunfigToml_second_call_appends_again slash_join plain plain
                sample_dir fresh_world eq_refl eq_refl eq_refl) as H.
  cbv zeta in H. destruct H as (Honce & Htwice & _).
  change (default [] (files fresh_world !! slash_join [sample_dir; BUNFIG_FILE]))
    with (@nil N) in Honce, Htwice.
  split; [reflexivity|]. split; [exact Honce | exact Htwice].
Defined.

(** C3 with every option set, on Linux. *)
Lemma publish_with_cached_binary_witness :
  binPath_of slash_join linux sample_options sample_info = sample_bin /\
  new_events (publish slash_join linux sample_dir sample_options)
             (with_cached_binary fresh_world)
    = [GetDenoDownloadUrl; FileExists sample_bin;
       Exec sample_bin
            [lit "publish"; lit "--unstable-bare-node-builtins";
             lit "--unstable-sloppy-imports"; lit "--dry-run";
             lit "--allow-slow-types"; lit "--token"; lit "abc"]
            sample_dir].
Proof.
  split; [reflexivity|].
  apply (publish_with_cached_binary slash_join linux sample_dir sample_options
           (with_cached_binary fresh_world) sample_info eq_refl eq_refl).
Defined.

(** C4 twice: the folder is not there (ENOENT, dropped), and the folder may
    not be removed (EACCES, thrown). *)
Lemma publish_clears_cache_before_download_witness :
  is_ENOENT (enoent_error sample_bin_folder) = true /\
  take 4 (new_events (publish slash_join linux sample_dir sample_options)
            (with_rm_fault (enoent_error sample_bin_folder) fresh_world))
    = [GetDenoDownloadUrl; FileExists sample_bin; Rm sample_bin_folder true;
       DownloadDeno sample_bin sample_info] /\
  is_ENOENT eacces_error = false /\
  fst (publish slash_join linux sample_dir sample_options
         (with_rm_fault eacces_error fresh_world)) = Throw eacces_error /\
  new_events (publish slash_join linux sample_dir sample_options)
             (with_rm_fault eacces_error fresh_world)
    = [GetDenoDownloadUrl; FileExists sample_bin; Rm sample_bin_folder true].
Proof.
  pose proof (publish_clears_cache_before_download slash_join linux sample_dir
                sample_options
                (with_rm_fault (enoent_error sample_bin_folder) fresh_world)
                sample_info eq_refl eq_refl) as Hmissing.
  pose proof (publish_clears_cache_before_download slash_join linux sample_dir
                sample_options (with_rm_fault eacces_error fresh_world)
                sample_info eq_refl eq_refl) as Hdenied.
  cbv zeta in Hmissing, Hdenied.
  destruct Hmissing as [_ Hevents]. destruct Hdenied as [Hthrown Hstop].
  split; [reflexivity|]. split; [exact Hevents|]. split; [reflexivity|].
  split; [by rewrite Hthrown | exact Hstop].
Defined.

(** C10 with the empty string as token. *)
Lemma publish_empty_token_no_flag_witness :
  token empty_token_options = Some [] /\
  publish_args empty_token_options
    = [lit "publish"; lit "--unstable-bare-node-builtins";
       lit "--unstable-sloppy-imports"; lit "--allow-slow-types"] /\
  (lit "--token" ∉ publish_args empty_token_options).
Proof.
  split; [reflexivity|]. split; [reflexivity|].
  apply (publish_empty_token_no_flag slash_join linux sample_dir
           empty_token_options fresh_world eq_refl).
Defined.

(** C2 as the specification words it fails on both writing paths: the text
    written to a new [.npmrc], and the text appended to an existing one,
    hold [JSR_NPMRC], in which the line with a slash after the host does
    not occur. *)
Lemma setupNpmRc_slashed_line_counterexample :
  new_events (setupNpmRc slash_join plain plain sample_dir) fresh_world
    = [ReadFile npmrc_path; Stdout (lit "Setting up .npmrc...");
       WriteFile npmrc_path JSR_NPMRC; Stdout (lit "ok" ++ [LF])] /\
  includes JSR_NPMRC SLASHED_NPMRC_LINE = false /\
  new_events (setupNpmRc slash_join plain plain sample_dir)
             (with_file npmrc_path unconfigured_npmrc fresh_world)
    = [ReadFile npmrc_path; Stdout (lit "Setting up .npmrc...");
       WriteFile npmrc_path (unconfigured_npmrc ++ JSR_NPMRC);
       Stdout (lit "ok" ++ [LF])] /\
  includes (unconfigured_npmrc ++ JSR_NPMRC) SLASHED_NPMRC_LINE = false.
Proof.
  repeat split; vm_compute; reflexivity.
Qed.

(** * Further properties of the commands *)

(** ** More on strings and on the pattern *)

Lemma includes_self_appended old pat : includes (old ++ pat) pat = true.
Proof. apply includes_spec. exists old, []. by rewrite app_nil_r. Qed.

Lemma concat_replicate_S (n : nat) (block : jsstring) :
  block ++ concat (replicate n block) = concat (replicate (S n) block).
Proof. reflexivity. Qed.

(** ** The configuration writers, case by case *)

Section WriterProperties.

Variable path_join : list jsstring -> jsstring.
Variables green red : jsstring -> jsstring.

Local Abbreviation ensure_block := (ensure_block green red).
Local Abbreviation setupNpmRc := (setupNpmRc path_join green red).
Local Abbreviation setupBunfigToml := (setupBunfigToml path_join green red).

Lemma setupNpmRc_shape dir :
  setupNpmRc dir =
  ensure_block (fun content => includes content JSR_NPMRC) JSR_NPMRC
    (lit "Setting up " ++ NPMRC_FILE) (path_join [dir; NPMRC_FILE]).
Proof using Type. reflexivity. Qed.

Lemma setupBunfigToml_shape dir :
  setupBunfigToml dir =
  ensure_block myorg1_test JSR_BUNFIG
    (lit "Setting up " ++ BUNFIG_FILE) (path_join [dir; BUNFIG_FILE]).
Proof using Type. reflexivity. Qed.

(** Every run of a writer, spelled out: [write content w0] is one
    status-wrapped write starting in [w0]. *)
Lemma ensure_block_outcome present block msg p w :
  let w1 := emit (ReadFile p) w in
  let announce := Stdout (msg ++ lit "...") in
  let write content w0 :=
    let w' := emit (WriteFile p content) (emit announce w0) in
    match write_fault w p with
    | None => (Ok tt, emit (Stdout (green (lit "ok") ++ [LF])) (store p content w'))
    | Some refusal => (Throw refusal, emit (Stdout (red (lit "error") ++ [LF])) w')
    end in
  ensure_block present block msg p w =
  match fst (readFile p w) with
  | Ok content =>
      if present content then (Ok tt, w1)
      else
        match write_fault w p with
        | Some refusal =>
            if is_ENOENT refusal
            then write block (snd (write (content ++ block) w1))
            else write (content ++ block) w1
        | None => write (content ++ block) w1
        end
  | Throw err => if is_ENOENT err then write block w1 else (Throw err, w1)
  end.
Proof using Type.
  intros w1 announce write. unfold ensure_block.
  unfold try_catch at 1. unfold bind at 1.
  rewrite (readFile_eq p w). fold w1. simpl.
  destruct (fst (readFile p w)) as [content|err].
  - destruct (present content); simpl; [reflexivity|].
    rewrite wrapped_write. cbv zeta. simpl. fold announce.
    destruct (write_fault w p) as [refusal|] eqn:Hw; [|reflexivity].
    destruct (is_ENOENT refusal); [|reflexivity].
    rewrite wrapped_write. cbv zeta. simpl. by rewrite Hw.
  - destruct (is_ENOENT err); [|reflexivity].
    rewrite wrapped_write. cbv zeta. simpl.
    by destruct (write_fault w p).
Qed.

(** A writer never changes the answers of the environment, and the only
    file it can change is its own. *)
Lemma ensure_block_frame present block msg p w :
  let after := snd (ensure_block present block msg p w) in
  same_answers w after /\
  (files after = files w \/ exists content, files after = <[p := content]> (files w)).
Proof using Type.
  intros after. unfold after. rewrite ensure_block_outcome. cbv zeta.
  destruct (fst (readFile p w)) as [content|err].
  - destruct (present content); [by repeat split; auto|].
    destruct (write_fault w p) as [refusal|] eqn:Hw.
    + destruct (is_ENOENT refusal); simpl; (split; [by repeat split | by left]).
    + simpl. split; [by repeat split | right; eauto].
  - destruct (is_ENOENT err); [|by repeat split; auto].
    destruct (write_fault w p); simpl;
      (split; [by repeat split | first [by left | right; eauto]]).
Qed.

(** With a test that accepts whatever ends in the block, a writer that
    returns has left its file passing the test. *)
Lemma ensure_block_success present block msg p w :
  (forall old, present (old ++ block) = true) ->
  fst (ensure_block present block msg p w) = Ok tt ->
  exists content,
    files (snd (ensure_block present block msg p w)) !! p = Some content /\
    present content = true.
Proof using Type.
  intros Hends. rewrite ensure_block_outcome. cbv zeta.
  unfold readFile. destruct (read_fault w p) as [fault|] eqn:Hr; simpl.
  - destruct (is_ENOENT fault); [|discriminate].
    destruct (write_fault w p); simpl; [discriminate|]. intros _.
    exists block. split; [apply lookup_insert_eq | apply (Hends [])].
  - destruct (files w !! p) as [content|] eqn:Hf; simpl.
    + destruct (present content) eqn:Hp; simpl; [intros _; eauto|].
      destruct (write_fault w p) as [refusal|] eqn:Hw; simpl.
      * destruct (is_ENOENT refusal); simpl; rewrite ?Hw; discriminate.
      * intros _. exists (content ++ block). split; [apply lookup_insert_eq | apply Hends].
    + destruct (write_fault w p); simpl; [discriminate|]. intros _.
      exists block. split; [apply lookup_insert_eq | apply (Hends [])].
Qed.

(** A call on a file that passes the test is the read alone. *)
Lemma ensure_block_present present block msg p w content :
  read_fault w p = None ->
  files w !! p = Some content ->
  present content = true ->
  ensure_block present block msg p w = (Ok tt, emit (ReadFile p) w).
Proof using Type.
  intros Hr Hf Hp. rewrite ensure_block_outcome. cbv zeta.
  by rewrite (readFile_present p w content Hr Hf), Hp.
Qed.

(** On a file system that refuses nothing at [p], a writer returns. *)
Lemma ensure_block_returns present block msg p w :
  read_fault w p = None ->
  write_fault w p = None ->
  fst (ensure_block present block msg p w) = Ok tt.
Proof using Type.
  intros Hr Hw. rewrite ensure_block_outcome. cbv zeta.
  unfold readFile. rewrite Hr, Hw.
  destruct (files w !! p) as [content|]; simpl; [|reflexivity].
  by destruct (present content).
Qed.

(** Further calls on a file that passes the test change no file. *)
Lemma ensure_block_settled present block msg p content n :
  present content = true ->
  forall w,
    read_fault w p = None ->
    files w !! p = Some content ->
    files (after_calls n (ensure_block present block msg p) w) = files w.
Proof using Type.
  intros Hp. induction n as [|n IH]; intros w Hr Hf; [reflexivity|].
  cbn [after_calls].
  rewrite (ensure_block_present present block msg p w content Hr Hf Hp).
  simpl. by rewrite IH.
Qed.

(** *** [setupNpmRc] *)

(** X1.  On a file system that refuses neither the read nor the write of
    [<dir>/.npmrc], whatever the file holds or whether it exists, a second
    call of [setupNpmRc] is the read alone, and any number of calls in a
    row leaves the files that one call leaves. *)
Theorem setupNpmRc_idempotent (dir : jsstring) (w : World) (n : nat) :
  let p := path_join [dir; NPMRC_FILE] in
  read_fault w p = None ->
  write_fault w p = None ->
  let once := snd (setupNpmRc dir w) in
  setupNpmRc dir once = (Ok tt, emit (ReadFile p) once) /\
  files (after_calls (S n) (setupNpmRc dir) w) = files once.
Proof using Type.
  intros p Hr Hw once. unfold once. rewrite setupNpmRc_shape. fold p.
  set (present := fun content => includes content JSR_NPMRC).
  set (msg := lit "Setting up " ++ NPMRC_FILE).
  pose proof (ensure_block_returns present JSR_NPMRC msg p w Hr Hw) as Hok.
  destruct (ensure_block_success present JSR_NPMRC msg p w
              (fun old => includes_self_appended old JSR_NPMRC) Hok)
    as (content & Hf & Hp).
  destruct (ensure_block_frame present JSR_NPMRC msg p w) as [(Hr' & _) _].
  assert (read_fault (snd (ensure_block present JSR_NPMRC msg p w)) p = None) as Hr1
    by (by rewrite Hr').
  split.
  - by apply (ensure_block_present present JSR_NPMRC msg p _ content).
  - cbn [after_calls].
    by apply (ensure_block_settled present JSR_NPMRC msg p content n).
Qed.

(** X2.  Whenever [setupNpmRc] returns, whatever the environment answered
    on the way, [<dir>/.npmrc] exists and its text contains [JSR_NPMRC]. *)
Theorem setupNpmRc_success_means_configured (dir : jsstring) (w : World) :
  let p := path_join [dir; NPMRC_FILE] in
  fst (setupNpmRc dir w) = Ok tt ->
  exists content,
    files (snd (setupNpmRc dir w)) !! p = Some content /\
    includes content JSR_NPMRC = true.
Proof using Type.
  intros p. rewrite setupNpmRc_shape. fold p.
  apply (ensure_block_success (fun content => includes content JSR_NPMRC)).
  intros old. apply includes_self_appended.
Qed.

(** X3.  When the read of [<dir>/.npmrc] fails with anything that is not an
    [Error] with code ENOENT (a permission or I/O failure), [setupNpmRc]
    throws that very value having done nothing but the read: nothing is
    printed, nothing is written, no file changes. *)
Theorem setupNpmRc_rethrows_other_read_failures (dir : jsstring) (w : World) (err : thrown) :
  let p := path_join [dir; NPMRC_FILE] in
  fst (readFile p w) = Throw err ->
  is_ENOENT err = false ->
  setupNpmRc dir w = (Throw err, emit (ReadFile p) w) /\
  new_events (setupNpmRc dir) w = [ReadFile p] /\
  files (snd (setupNpmRc dir w)) = files w.
Proof using Type.
  intros p Hread Hother.
  assert (setupNpmRc dir w = (Throw err, emit (ReadFile p) w)) as Hrun.
  { rewrite setupNpmRc_shape, ensure_block_outcome. fold p. cbv zeta.
    by rewrite Hread, Hother. }
  split; [done|]. split.
  - unfold new_events. rewrite Hrun. read_events.
  - by rewrite Hrun.
Qed.

(** X4.  [setupNpmRc] changes no file but [<dir>/.npmrc]: after any call
    the files are as before, or as before with that one file replaced. *)
Theorem setupNpmRc_changes_only_npmrc (dir : jsstring) (w : World) :
  let p := path_join [dir; NPMRC_FILE] in
  let after := snd (setupNpmRc dir w) in
  files after = files w \/ exists content, files after = <[p := content]> (files w).
Proof using Type.
  intros p after. unfold after. rewrite setupNpmRc_shape. fold p.
  apply ensure_block_frame.
Qed.

(** X5.  The append of [setupNpmRc] sits inside the [try] whose [catch]
    creates the file.  Take a file system that refuses the writes to
    [<dir>/.npmrc], and a file that was read and lacks the line.  If the
    refusal is an [Error] with code ENOENT it is caught, and [setupNpmRc]
    goes on as the creation of the file from the state the refused append
    left: it is [wrapWithStatus(msg, writeFile(path, JSR_NPMRC))] there, a
    write that, wherever it is accepted, leaves the file holding
    [JSR_NPMRC] alone, without the text that was read.  As this second
    write is refused like the first, the status is printed twice and the
    caller gets the refusal.  A refusal with any other error is thrown
    after the one write. *)
Theorem setupNpmRc_refused_append_retried_as_create
    (dir : jsstring) (w : World) (content : jsstring) (refusal : thrown) :
  let p := path_join [dir; NPMRC_FILE] in
  let msg := lit "Setting up " ++ NPMRC_FILE in
  fst (readFile p w) = Ok content ->
  includes content JSR_NPMRC = false ->
  write_fault w p = Some refusal ->
  let after_append :=
    emit (Stdout (red (lit "error") ++ [LF]))
      (emit (WriteFile p (content ++ JSR_NPMRC))
         (emit (Stdout (msg ++ lit "...")) (emit (ReadFile p) w))) in
  (if is_ENOENT refusal
   then setupNpmRc dir w =
        wrapWithStatus green red msg (writeFile p JSR_NPMRC) after_append
   else setupNpmRc dir w = (Throw refusal, after_append)) /\
  (forall v : World,
     write_fault v p = None ->
     fst (wrapWithStatus green red msg (writeFile p JSR_NPMRC) v) = Ok tt /\
     files (snd (wrapWithStatus green red msg (writeFile p JSR_NPMRC) v))
       = <[p := JSR_NPMRC]> (files v)) /\
  fst (setupNpmRc dir w) = Throw refusal /\
  new_events (setupNpmRc dir) w =
    [ReadFile p; Stdout (lit "Setting up .npmrc...");
     WriteFile p (content ++ JSR_NPMRC); Stdout (red (lit "error") ++ [LF])]
    ++ (if is_ENOENT refusal
        then [Stdout (lit "Setting up .npmrc...");
              WriteFile p JSR_NPMRC; Stdout (red (lit "error") ++ [LF])]
        else []).
Proof using Type.
  intros p msg Hread Hlacks Hw after_append.
  assert (wrapWithStatus green red msg (writeFile p (content ++ JSR_NPMRC))
            (emit (ReadFile p) w) = (Throw refusal, after_append)) as Happend.
  { rewrite wrapped_write. cbv zeta. simpl. by rewrite Hw. }
  split; [|split].
  - rewrite setupNpmRc_after_read. fold p msg. cbv zeta.
    rewrite Hread, Hlacks, Happend.
    by destruct (is_ENOENT refusal).
  - intros v Hv. rewrite wrapped_write. cbv zeta. by rewrite Hv.
  - unfold new_events.
    rewrite setupNpmRc_shape, ensure_block_outcome. fold p. cbv zeta.
    rewrite Hread, Hlacks, Hw.
    destruct (is_ENOENT refusal); simpl; (split; [done | read_events]).
Qed.

(** *** [setupBunfigToml] *)

(** X6.  When the read of [<dir>/bunfig.toml] fails with ENOENT,
    [setupBunfigToml] writes one file, [<dir>/bunfig.toml], whose text is
    [JSR_BUNFIG] and nothing else; if the file system accepts the write the
    call returns and the file holds exactly that block, and if it refuses,
    the refusal is thrown and no file has changed. *)
Theorem setupBunfigToml_creates_missing_file (dir : jsstring) (w : World) (err : thrown) :
  let p := path_join [dir; BUNFIG_FILE] in
  fst (readFile p w) = Throw err ->
  is_ENOENT err = true ->
  match write_fault w p with
  | None =>
      fst (setupBunfigToml dir w) = Ok tt /\
      new_events (setupBunfigToml dir) w =
        [ReadFile p; Stdout (lit "Setting up bunfig.toml...");
         WriteFile p JSR_BUNFIG; Stdout (green (lit "ok") ++ [LF])] /\
      files (snd (setupBunfigToml dir w)) = <[p := JSR_BUNFIG]> (files w)
  | Some refusal =>
      fst (setupBunfigToml dir w) = Throw refusal /\
      new_events (setupBunfigToml dir) w =
        [ReadFile p; Stdout (lit "Setting up bunfig.toml...");
         WriteFile p JSR_BUNFIG; Stdout (red (lit "error") ++ [LF])] /\
      files (snd (setupBunfigToml dir w)) = files w
  end.
Proof using Type.
  intros p Hread Henoent. unfold new_events.
  rewrite setupBunfigToml_shape, ensure_block_outcome. fold p. cbv zeta.
  rewrite Hread, Henoent.
  destruct (write_fault w p); simpl; (split; [done|]); (split; [read_events | done]).
Qed.

(** X7.  When the read of [<dir>/bunfig.toml] fails with anything that is
    not an [Error] with code ENOENT, [setupBunfigToml] throws that very
    value having done nothing but the read. *)
Theorem setupBunfigToml_rethrows_other_read_failures
    (dir : jsstring) (w : World) (err : thrown) :
  let p := path_join [dir; BUNFIG_FILE] in
  fst (readFile p w) = Throw err ->
  is_ENOENT err = false ->
  setupBunfigToml dir w = (Throw err, emit (ReadFile p) w) /\
  new_events (setupBunfigToml dir) w = [ReadFile p] /\
  files (snd (setupBunfigToml dir w)) = files w.
Proof using Type.
  intros p Hread Hother.
  assert (setupBunfigToml dir w = (Throw err, emit (ReadFile p) w)) as Hrun.
  { rewrite setupBunfigToml_shape, ensure_block_outcome. fold p. cbv zeta.
    by rewrite Hread, Hother. }
  split; [done|]. split.
  - unfold new_events. rewrite Hrun. read_events.
  - by rewrite Hrun.
Qed.

(** X8.  [setupBunfigToml] changes no file but [<dir>/bunfig.toml]. *)
Theorem setupBunfigToml_changes_only_bunfig (dir : jsstring) (w : World) :
  let p := path_join [dir; BUNFIG_FILE] in
  let after := snd (setupBunfigToml dir w) in
  files after = files w \/ exists content, files after = <[p := content]> (files w).
Proof using Type.
  intros p after. unfold after. rewrite setupBunfigToml_shape. fold p.
  apply ensure_block_frame.
Qed.

(** A text in which ["@myorg1"] does not occur has no line that begins
    with it. *)
Lemma myorg1_test_needs_literal content :
  includes content MYORG1 = false -> myorg1_test content = false.
Proof using Type.
  intros Hnone. destruct (myorg1_test content) eqn:Htest; [|done].
  apply myorg1_test_spec in Htest as (pre & ws & post & -> & _).
  assert (includes (pre ++ MYORG1 ++ ws ++ [EQUALS] ++ post) MYORG1 = true) as Hin
    by (apply includes_spec; eauto).
  congruence.
Qed.

(** X9.  When [<dir>/bunfig.toml] is read, its text does not mention
    ["@myorg1"], and the write is accepted, [setupBunfigToml] rewrites the
    file as that text followed by [JSR_BUNFIG].  Whether the text already
    holds the ["@jsr"] block plays no part: a configured file gets the
    block once more. *)
Theorem setupBunfigToml_appends_without_myorg1
    (dir : jsstring) (w : World) (content : jsstring) :
  let p := path_join [dir; BUNFIG_FILE] in
  fst (readFile p w) = Ok content ->
  includes content MYORG1 = false ->
  write_fault w p = None ->
  fst (setupBunfigToml dir w) = Ok tt /\
  new_events (setupBunfigToml dir) w =
    [ReadFile p; Stdout (lit "Setting up bunfig.toml...");
     WriteFile p (content ++ JSR_BUNFIG); Stdout (green (lit "ok") ++ [LF])] /\
  files (snd (setupBunfigToml dir w)) = <[p := content ++ JSR_BUNFIG]> (files w).
Proof using Type.
  intros p Hread Hnone%myorg1_test_needs_literal Hw. unfold new_events.
  rewrite setupBunfigToml_shape, ensure_block_outcome. fold p. cbv zeta.
  rewrite Hread, Hnone, Hw. simpl. split; [done|]. split; [read_events | done].
Qed.

(** X10.  On a file system that refuses nothing, starting from a
    [bunfig.toml] that is missing or has no ["@myorg1"] line (text [old],
    empty when missing), [n + 1] calls in a row leave [old] followed by
    [n + 1] copies of [JSR_BUNFIG]: the file grows by one block per call. *)
Theorem setupBunfigToml_grows_with_each_call (dir : jsstring) (n : nat) (w : World) :
  let p := path_join [dir; BUNFIG_FILE] in
  let old := default [] (files w !! p) in
  read_fault w p = None ->
  write_fault w p = None ->
  myorg1_test old = false ->
  files (after_calls (S n) (setupBunfigToml dir) w) !! p
    = Some (old ++ concat (replicate (S n) JSR_BUNFIG)).
Proof using Type.
  intros p. revert w. induction n as [|n IH]; intros w old Hr Hw Htest;
    destruct (setupBunfigToml_appends path_join green red dir w Hr Hw Htest)
      as (Hf & Hr1 & Hw1); fold p old in Hf, Hr1, Hw1.
  - cbn [after_calls]. rewrite Hf.
    change (concat (replicate 1 JSR_BUNFIG)) with (JSR_BUNFIG ++ []).
    rewrite app_nil_r. apply lookup_insert_eq.
  - change (after_calls (S (S n)) (setupBunfigToml dir) w)
      with (after_calls (S n) (setupBunfigToml dir) (snd (setupBunfigToml dir w))).
    assert (files (snd (setupBunfigToml dir w)) !! p = Some (old ++ JSR_BUNFIG)) as Hnow
      by (rewrite Hf; apply lookup_insert_eq).
    rewrite IH.
    + rewrite Hnow. cbn [default from_option id].
      rewrite <- (concat_replicate_S (S n) JSR_BUNFIG). by rewrite <- app_assoc.
    + by rewrite Hr1.
    + by rewrite Hw1.
    + rewrite Hnow. cbn [default from_option id]. by rewrite myorg1_test_after_append.
Qed.

End WriterProperties.

(** ** [publish], step by step *)

Section PublishProperties.

Variable path_join : list jsstring -> jsstring.
Variable platform : jsstring.

Local Abbreviation publish := (publish path_join platform).
Local Abbreviation binPath_of := (binPath_of path_join platform).

Lemma publish_without_descriptor cwd options w err :
  download_url w = Throw err ->
  publish cwd options w = (Throw err, emit GetDenoDownloadUrl w).
Proof using Type.
  intros Hurl. unfold publish, bind at 1, getDenoDownloadUrl. by rewrite Hurl.
Qed.

(** X11.  When the download descriptor cannot be resolved, [publish] throws
    what [getDenoDownloadUrl] threw and does nothing else: the cache is not
    probed, nothing is deleted or downloaded, no subprocess is started. *)
Theorem publish_stops_without_descriptor
    (cwd : jsstring) (options : PublishOptions) (w : World) (err : thrown) :
  download_url w = Throw err ->
  publish cwd options w = (Throw err, emit GetDenoDownloadUrl w) /\
  new_events (publish cwd options) w = [GetDenoDownloadUrl].
Proof using Type.
  intros Hurl.
  pose proof (publish_without_descriptor cwd options w err Hurl) as Hrun.
  split; [done|]. unfold new_events. rewrite Hrun. read_events.
Qed.

(** X12.  When the executable is absent, the deletion of [binFolder] went
    through (or was rejected with ENOENT), and the download fails,
    [publish] throws what [downloadDeno] threw and starts no subprocess. *)
Theorem publish_stops_when_download_fails
    (cwd : jsstring) (options : PublishOptions) (w : World)
    (info : DownloadInfo) (err : thrown) :
  let bin := binPath_of options info in
  download_url w = Ok info ->
  exists_answer w bin = false ->
  (rm_fault w (binFolder options) = None \/
   exists gone, rm_fault w (binFolder options) = Some gone /\ is_ENOENT gone = true) ->
  download_fault w bin info = Some err ->
  fst (publish cwd options w) = Throw err /\
  new_events (publish cwd options) w =
    [GetDenoDownloadUrl; FileExists bin; Rm (binFolder options) true;
     DownloadDeno bin info].
Proof using Type.
  intros bin Hurl Habsent Hrm Hdl. unfold new_events.
  rewrite (publish_after_probe path_join platform cwd options w info Hurl).
  cbv zeta. fold bin. rewrite Habsent.
  assert ((downloadDeno bin info ;; exec bin (publish_args options) cwd)
            (emit (Rm (binFolder options) true)
               (emit (FileExists bin) (emit GetDenoDownloadUrl w)))
          = (Throw err,
             emit (DownloadDeno bin info)
               (emit (Rm (binFolder options) true)
                  (emit (FileExists bin) (emit GetDenoDownloadUrl w))))) as Hgo.
  { run_monad. by rewrite Hdl. }
  destruct Hrm as [-> | (gone & -> & ->)]; rewrite Hgo;
    (split; [done | read_events]).
Qed.

(** X13.  In every run of [publish] the events come in one fixed order, up
    to where the run stops: the descriptor alone when it cannot be resolved;
    otherwise the descriptor, the probe, and then either the subprocess
    (executable cached) or the deletion of [binFolder], the download and the
    subprocess.  So nothing is deleted once the executable is found, the
    download never precedes the deletion, the subprocess is started at most
    once and only as the last step, always on the path that was probed. *)
Theorem publish_event_order (cwd : jsstring) (options : PublishOptions) (w : World) :
  match download_url w with
  | Throw _ => new_events (publish cwd options) w = [GetDenoDownloadUrl]
  | Ok info =>
      let bin := binPath_of options info in
      let start := Exec bin (publish_args options) cwd in
      if exists_answer w bin
      then new_events (publish cwd options) w = [GetDenoDownloadUrl; FileExists bin; start]
      else
        new_events (publish cwd options) w `prefix_of`
          [GetDenoDownloadUrl; FileExists bin; Rm (binFolder options) true;
           DownloadDeno bin info; start] /\
        (3 <= length (new_events (publish cwd options) w))%nat
  end.
Proof using Type.
  destruct (download_url w) as [info|err] eqn:Hurl.
  - cbv zeta. set (bin := binPath_of options info). unfold new_events.
    rewrite (publish_after_probe path_join platform cwd options w info Hurl).
    cbv zeta. fold bin.
    destruct (exists_answer w bin).
    + unfold exec. simpl. by destruct (exec_fault w _ _ _); read_events.
    + assert (forall l k : list event, l `prefix_of` l ++ k) as Hpre
        by (intros l k; by exists k).
      destruct (rm_fault w (binFolder options)) as [gone|];
        [destruct (is_ENOENT gone)|]; run_monad;
        try (destruct (download_fault w bin info); simpl;
             [|destruct (exec_fault w _ _ _)]);
        read_events; simpl;
        (split; [|lia]);
        first [ done
              | apply (Hpre [_; _; _; _] [_])
              | apply (Hpre [_; _; _] [_; _]) ].
  - unfold new_events.
    rewrite (publish_without_descriptor cwd options w err Hurl). read_events.
Qed.

(** X14.  [publish] returns only when the subprocess was started and
    ended well: if it returns, the descriptor was resolved, the last thing
    done was to start the executable at the computed path with
    [publish_args] in [cwd], and that subprocess did not fail. *)
Theorem publish_returns_only_after_subprocess
    (cwd : jsstring) (options : PublishOptions) (w : World) :
  fst (publish cwd options w) = Ok tt ->
  exists info,
    download_url w = Ok info /\
    exec_fault w (binPath_of options info) (publish_args options) cwd = None /\
    last (new_events (publish cwd options) w)
      = Some (Exec (binPath_of options info) (publish_args options) cwd).
Proof using Type.
  destruct (download_url w) as [info|err] eqn:Hurl.
  2:{ by rewrite (publish_without_descriptor cwd options w err Hurl). }
  unfold new_events.
  rewrite (publish_after_probe path_join platform cwd options w info Hurl).
  cbv zeta. intros Hok. exists info. split; [done|]. revert Hok.
  set (bin := binPath_of options info).
  destruct (exists_answer w bin).
  - unfold exec. simpl.
    destruct (exec_fault w bin (publish_args options) cwd); simpl; [done|].
    intros _. split; [done|]. by read_events.
  - destruct (rm_fault w (binFolder options)) as [gone|];
      [destruct (is_ENOENT gone); [|done]|];
      run_monad;
      (destruct (download_fault w bin info); simpl; [done|]);
      (destruct (exec_fault w bin (publish_args options) cwd); simpl; [done|]);
      intros _; (split; [done|]); by read_events.
Qed.

End PublishProperties.

(** ** [install] and [remove] *)

Section InstallProperties.

Variables PkgManagerName PkgManager JsrPackage : Type.
Variable instanceof_Bun : PkgManager -> bool.
Variable pm_cwd : PkgManager -> jsstring.
Variable toString : JsrPackage -> jsstring.
Variable getPkgManager : jsstring -> option PkgManagerName -> M PkgManager.
Variable pm_install :
  PkgManager -> list JsrPackage -> InstallOptions PkgManagerName -> M unit.
Variable pm_remove : PkgManager -> list JsrPackage -> M unit.
Variable path_join : list jsstring -> jsstring.
Variable process_cwd : jsstring.
Variables green red cyan : jsstring -> jsstring.

Local Abbreviation install :=
  (install instanceof_Bun pm_cwd toString getPkgManager pm_install
     path_join process_cwd green red cyan).
Local Abbreviation remove :=
  (remove toString getPkgManager pm_remove process_cwd cyan).
Local Abbreviation setupNpmRc := (setupNpmRc path_join green red).
Local Abbreviation setupBunfigToml := (setupBunfigToml path_join green red).

(** [install] once the manager is resolved: [setup] is the writer that the
    kind of manager selects. *)
Lemma install_after_resolution packages (options : InstallOptions PkgManagerName) w pm w1 :
  getPkgManager process_cwd (pkgManagerName options) w = (Ok pm, w1) ->
  let setup := if instanceof_Bun pm then setupBunfigToml (pm_cwd pm)
               else setupNpmRc (pm_cwd pm) in
  let line :=
    lit "Installing " ++ cyan (js_join (lit ", ") (List.map toString packages))
    ++ lit "..." ++ [LF] in
  install packages options w =
  match fst (setup w1) with
  | Ok _ => pm_install pm packages options (emit (Stdout line) (snd (setup w1)))
  | Throw err => (Throw err, snd (setup w1))
  end.
Proof using Type.
  intros Hpm setup line. unfold install. unfold bind at 1. rewrite Hpm.
  unfold bind at 1. fold setup.
  destruct (setup w1) as [[[]|err] w2]; simpl; [|reflexivity].
  unfold bind, console_log, stdout_write. simpl.
  unfold line. by rewrite <- !app_assoc.
Qed.

(** X15.  With a manager that is not Bun, [install] sets up [.npmrc] in the
    manager's directory before anything is installed: when the manager's
    [install] starts, [<cwd>/.npmrc] exists and contains [JSR_NPMRC], and
    [Installing <packages>...] has just been printed.  If the set-up
    throws, [install] throws the same value and the manager is not run. *)
Theorem install_configures_npmrc_before_manager
    (packages : list JsrPackage) (options : InstallOptions PkgManagerName)
    (w w1 : World) (pm : PkgManager) :
  getPkgManager process_cwd (pkgManagerName options) w = (Ok pm, w1) ->
  instanceof_Bun pm = false ->
  let p := path_join [pm_cwd pm; NPMRC_FILE] in
  let w2 := snd (setupNpmRc (pm_cwd pm) w1) in
  let line :=
    lit "Installing " ++ cyan (js_join (lit ", ") (List.map toString packages))
    ++ lit "..." ++ [LF] in
  match fst (setupNpmRc (pm_cwd pm) w1) with
  | Ok _ =>
      install packages options w = pm_install pm packages options (emit (Stdout line) w2) /\
      exists content, files w2 !! p = Some content /\ includes content JSR_NPMRC = true
  | Throw err => install packages options w = (Throw err, w2)
  end.
Proof using Type.
  intros Hpm Hkind p w2 line.
  pose proof (install_after_resolution packages options w pm w1 Hpm) as Hrun.
  cbv zeta in Hrun. rewrite Hkind in Hrun. fold w2 line in Hrun.
  destruct (fst (setupNpmRc (pm_cwd pm) w1)) as [[]|err] eqn:Hsetup; [|done].
  split; [done|].
  apply (ensure_block_success green red
           (fun content => includes content JSR_NPMRC) JSR_NPMRC
           (lit "Setting up " ++ NPMRC_FILE) p w1);
    [intros old; apply includes_self_appended | exact Hsetup].
Qed.

(** X16.  With Bun, [install] sets up [bunfig.toml] and leaves [.npmrc]
    alone: when Bun's [install] starts (or when the set-up has thrown,
    which [install] passes on without running Bun), [<cwd>/.npmrc] is what
    it was when the manager was resolved. *)
Theorem install_with_bun_leaves_npmrc
    (packages : list JsrPackage) (options : InstallOptions PkgManagerName)
    (w w1 : World) (pm : PkgManager) :
  getPkgManager process_cwd (pkgManagerName options) w = (Ok pm, w1) ->
  instanceof_Bun pm = true ->
  path_join [pm_cwd pm; NPMRC_FILE] <> path_join [pm_cwd pm; BUNFIG_FILE] ->
  let w2 := snd (setupBunfigToml (pm_cwd pm) w1) in
  let line :=
    lit "Installing " ++ cyan (js_join (lit ", ") (List.map toString packages))
    ++ lit "..." ++ [LF] in
  match fst (setupBunfigToml (pm_cwd pm) w1) with
  | Ok _ => install packages options w = pm_install pm packages options (emit (Stdout line) w2)
  | Throw err => install packages options w = (Throw err, w2)
  end /\
  files w2 !! path_join [pm_cwd pm; NPMRC_FILE]
    = files w1 !! path_join [pm_cwd pm; NPMRC_FILE].
Proof using Type.
  intros Hpm Hkind Hpaths w2 line.
  pose proof (install_after_resolution packages options w pm w1 Hpm) as Hrun.
  cbv zeta in Hrun. rewrite Hkind in Hrun. fold w2 line in Hrun.
  split.
  - by destruct (fst (setupBunfigToml (pm_cwd pm) w1)) as [[]|err].
  - destruct (ensure_block_frame green red myorg1_test JSR_BUNFIG
                (lit "Setting up " ++ BUNFIG_FILE)
                (path_join [pm_cwd pm; BUNFIG_FILE]) w1) as [_ Hfiles].
    change (snd (ensure_block green red myorg1_test JSR_BUNFIG
                   (lit "Setting up " ++ BUNFIG_FILE)
                   (path_join [pm_cwd pm; BUNFIG_FILE]) w1)) with w2 in Hfiles.
    destruct Hfiles as [-> | [content ->]]; [done|].
    by rewrite lookup_insert_ne.
Qed.

(** X17.  [remove] writes no file of its own: if resolving the manager and
    the manager's [remove] leave the files alone, so does [remove], for Bun
    as for any other manager (no configuration is set up for a removal). *)
Theorem remove_writes_no_file
    (packages : list JsrPackage) (options : BaseOptions PkgManagerName) (w : World) :
  (forall w', files (snd (getPkgManager process_cwd (pkgManagerName options) w')) = files w') ->
  (forall pm w', files (snd (pm_remove pm packages w')) = files w') ->
  files (snd (remove packages options w)) = files w.
Proof using Type.
  intros Hresolve Hremove. unfold remove, bind at 1.
  specialize (Hresolve w).
  destruct (getPkgManager process_cwd (pkgManagerName options) w) as [[pm|err] w1];
    simpl in *; [|done].
  unfold bind, console_log, stdout_write. simpl.
  by rewrite Hremove.
Qed.

End InstallProperties.

(** * The further properties at work *)

(** X1 from a fresh project directory: three calls leave what one call
    leaves. *)
Lemma setupNpmRc_idempotent_witness :
  files (after_calls 3 (setupNpmRc slash_join plain plain sample_dir) fresh_world)
    = files (snd (setupNpmRc slash_join plain plain sample_dir fresh_world)) /\
  files (snd (setupNpmRc slash_join plain plain sample_dir fresh_world)) !! npmrc_path
    = Some JSR_NPMRC.
Proof.
  split; [|reflexivity].
  apply (setupNpmRc_idempotent slash_join plain plain sample_dir fresh_world 2
           eq_refl eq_refl).
Defined.

(** X2 on an [.npmrc] with one unrelated line. *)
Lemma setupNpmRc_success_means_configured_witness :
  fst (setupNpmRc slash_join plain plain sample_dir
         (with_file npmrc_path unconfigured_npmrc fresh_world)) = Ok tt /\
  exists content,
    files (snd (setupNpmRc slash_join plain plain sample_dir
                  (with_file npmrc_path unconfigured_npmrc fresh_world))) !! npmrc_path
      = Some content /\
    includes content JSR_NPMRC = true.
Proof.
  split; [reflexivity|].
  apply (setupNpmRc_success_means_configured slash_join plain plain sample_dir
           (with_file npmrc_path unconfigured_npmrc fresh_world) eq_refl).
Defined.

(** X3 on an [.npmrc] that may not be read. *)
Lemma setupNpmRc_rethrows_other_read_failures_witness :
  is_ENOENT eacces_error = false /\
  fst (setupNpmRc slash_join plain plain sample_dir
         (with_read_fault eacces_error fresh_world)) = Throw eacces_error /\
  new_events (setupNpmRc slash_join plain plain sample_dir)
             (with_read_fault eacces_error fresh_world)
    = [ReadFile npmrc_path].
Proof.
  pose proof (setupNpmRc_rethrows_other_read_failures slash_join plain plain
                sample_dir (with_read_fault eacces_error fresh_world) eacces_error
                eq_refl eq_refl) as (Hrun & Hevents & _).
  split; [reflexivity|]. split; [by rewrite Hrun | exact Hevents].
Defined.

(** X5 on an [.npmrc] whose directory vanishes before the write. *)
Lemma setupNpmRc_refused_append_retried_as_create_witness :
  is_ENOENT (enoent_error npmrc_path) = true /\
  new_events (setupNpmRc slash_join plain plain sample_dir)
             (with_write_fault (enoent_error npmrc_path)
                (with_file npmrc_path unconfigured_npmrc fresh_world))
    = [ReadFile npmrc_path; Stdout (lit "Setting up .npmrc...");
       WriteFile npmrc_path (unconfigured_npmrc ++ JSR_NPMRC); Stdout (lit "error" ++ [LF]);
       Stdout (lit "Setting up .npmrc...");
       WriteFile npmrc_path JSR_NPMRC; Stdout (lit "error" ++ [LF])].
Proof.
  split; [reflexivity|].
  apply (setupNpmRc_refused_append_retried_as_create slash_join plain plain sample_dir
           (with_write_fault (enoent_error npmrc_path)
              (with_file npmrc_path unconfigured_npmrc fresh_world))
           unconfigured_npmrc (enoent_error npmrc_path) eq_refl eq_refl eq_refl).
Defined.

(** X6 on a fresh project directory. *)
Lemma setupBunfigToml_creates_missing_file_witness :
  is_ENOENT (enoent_error bunfig_path) = true /\
  files (snd (setupBunfigToml slash_join plain plain sample_dir fresh_world))
    = <[bunfig_path := JSR_BUNFIG]> (files fresh_world).
Proof.
  pose proof (setupBunfigToml_creates_missing_file slash_join plain plain
                sample_dir fresh_world (enoent_error bunfig_path)
                eq_refl eq_refl) as H.
  simpl in H. destruct H as (_ & _ & Hfiles).
  split; [reflexivity | exact Hfiles].
Defined.

(** X7 on a [bunfig.toml] that may not be read. *)
Lemma setupBunfigToml_rethrows_other_read_failures_witness :
  is_ENOENT eacces_error = false /\
  new_events (setupBunfigToml slash_join plain plain sample_dir)
             (with_read_fault eacces_error fresh_world)
    = [ReadFile bunfig_path].
Proof.
  pose proof (setupBunfigToml_rethrows_other_read_failures slash_join plain plain
                sample_dir (with_read_fault eacces_error fresh_world) eacces_error
                eq_refl eq_refl) as (_ & Hevents & _).
  split; [reflexivity | exact Hevents].
Defined.

(** X9 on a [bunfig.toml] that already is the ["@jsr"] block. *)
Lemma setupBunfigToml_appends_without_myorg1_witness :
  includes JSR_BUNFIG JSR_BUNFIG = true /\
  includes JSR_BUNFIG MYORG1 = false /\
  files (snd (setupBunfigToml slash_join plain plain sample_dir
                (with_file bunfig_path JSR_BUNFIG fresh_world)))
    = <[bunfig_path := JSR_BUNFIG ++ JSR_BUNFIG]>
        (files (with_file bunfig_path JSR_BUNFIG fresh_world)).
Proof.
  split; [reflexivity|]. split; [reflexivity|].
  apply (setupBunfigToml_appends_without_myorg1 slash_join plain plain sample_dir
           (with_file bunfig_path JSR_BUNFIG fresh_world) JSR_BUNFIG
           eq_refl eq_refl eq_refl).
Defined.

(** X10 from a fresh project directory: three calls, three blocks. *)
Lemma setupBunfigToml_grows_with_each_call_witness :
  files (after_calls 3 (setupBunfigToml slash_join plain plain sample_dir) fresh_world)
    !! bunfig_path
    = Some (JSR_BUNFIG ++ JSR_BUNFIG ++ JSR_BUNFIG).
Proof.
  pose proof (setupBunfigToml_grows_with_each_call slash_join plain plain sample_dir 2
                fresh_world eq_refl eq_refl eq_refl) as H.
  cbv zeta in H. exact H.
Defined.

(** X11 when the release metadata cannot be fetched. *)
Lemma publish_stops_without_descriptor_witness :
  new_events (publish slash_join linux sample_dir sample_options)
             (with_download_url (Throw network_error) fresh_world)
    = [GetDenoDownloadUrl] /\
  fst (publish slash_join linux sample_dir sample_options
         (with_download_url (Throw network_error) fresh_world)) = Throw network_error.
Proof.
  pose proof (publish_stops_without_descriptor slash_join linux sample_dir sample_options
                (with_download_url (Throw network_error) fresh_world) network_error
                eq_refl) as [Hrun Hevents].
  split; [exact Hevents | by rewrite Hrun].
Defined.

(** X12 when the download breaks off. *)
Lemma publish_stops_when_download_fails_witness :
  fst (publish slash_join linux sample_dir sample_options
         (with_download_fault network_error fresh_world)) = Throw network_error /\
  new_events (publish slash_join linux sample_dir sample_options)
             (with_download_fault network_error fresh_world)
    = [GetDenoDownloadUrl; FileExists sample_bin; Rm sample_bin_folder true;
       DownloadDeno sample_bin sample_info].
Proof.
  apply (publish_stops_when_download_fails slash_join linux sample_dir sample_options
           (with_download_fault network_error fresh_world) sample_info network_error
           eq_refl eq_refl (or_introl eq_refl) eq_refl).
Defined.

(** X14 on a first run that goes through: download, then the subprocess. *)
Lemma publish_returns_only_after_subprocess_witness :
  fst (publish slash_join linux sample_dir sample_options fresh_world) = Ok tt /\
  exists info,
    download_url fresh_world = Ok info /\
    exec_fault fresh_world (binPath_of slash_join linux sample_options info)
      (publish_args sample_options) sample_dir = None /\
    last (new_events (publish slash_join linux sample_dir sample_options) fresh_world)
      = Some (Exec (binPath_of slash_join linux sample_options info)
                (publish_args sample_options) sample_dir).
Proof.
  split; [reflexivity|].
  apply (publish_returns_only_after_subprocess slash_join linux sample_dir
           sample_options fresh_world eq_refl).
Defined.

(** X15 with npm in a fresh project directory: npm starts with [.npmrc] in
    place. *)
Lemma install_configures_npmrc_before_manager_witness :
  new_events
    (install (fun pm : bool => pm) (fun _ => sample_dir) (fun pkg : jsstring => pkg)
       named_manager (manager_install sample_dir)
       slash_join sample_dir plain plain plain sample_packages npm_install_options)
    fresh_world
  = [ReadFile npmrc_path; Stdout (lit "Setting up .npmrc...");
     WriteFile npmrc_path JSR_NPMRC; Stdout (lit "ok" ++ [LF]);
     Stdout (lit "Installing @std/path, @luca/flag@1.0.0..." ++ [LF]);
     Exec (lit "npm") [lit "install"; lit "@std/path"; lit "@luca/flag@1.0.0"] sample_dir] /\
  exists content,
    files (snd (setupNpmRc slash_join plain plain sample_dir fresh_world)) !! npmrc_path
      = Some content /\
    includes content JSR_NPMRC = true.
Proof.
  pose proof (install_configures_npmrc_before_manager jsstring bool jsstring
                (fun pm : bool => pm) (fun _ => sample_dir) (fun pkg : jsstring => pkg)
                named_manager (manager_install sample_dir)
                slash_join sample_dir plain plain plain
                sample_packages npm_install_options fresh_world fresh_world false
                eq_refl eq_refl) as H.
  cbv zeta in H.
  change (fst (setupNpmRc slash_join plain plain sample_dir fresh_world))
    with (@Ok unit tt) in H.
  destruct H as [_ Hconfigured].
  split; [reflexivity | exact Hconfigured].
Defined.

(** X16 with Bun in a project directory that has an [.npmrc]: Bun starts
    with [bunfig.toml] written and [.npmrc] as it was. *)
Lemma install_with_bun_leaves_npmrc_witness :
  npmrc_path <> bunfig_path /\
  new_events
    (install (fun pm : bool => pm) (fun _ => sample_dir) (fun pkg : jsstring => pkg)
       named_manager (manager_install sample_dir)
       slash_join sample_dir plain plain plain sample_packages bun_install_options)
    (with_file npmrc_path unconfigured_npmrc fresh_world)
  = [ReadFile bunfig_path; Stdout (lit "Setting up bunfig.toml...");
     WriteFile bunfig_path JSR_BUNFIG; Stdout (lit "ok" ++ [LF]);
     Stdout (lit "Installing @std/path, @luca/flag@1.0.0..." ++ [LF]);
     Exec (lit "bun") [lit "install"; lit "@std/path"; lit "@luca/flag@1.0.0"] sample_dir] /\
  files (snd (setupBunfigToml slash_join plain plain sample_dir
                (with_file npmrc_path unconfigured_npmrc fresh_world))) !! npmrc_path
    = Some unconfigured_npmrc.
Proof.
  assert (npmrc_path <> bunfig_path) as Hpaths by (by vm_compute).
  pose proof (install_with_bun_leaves_npmrc jsstring bool jsstring
                (fun pm : bool => pm) (fun _ => sample_dir) (fun pkg : jsstring => pkg)
                named_manager (manager_install sample_dir)
                slash_join sample_dir plain plain plain
                sample_packages bun_install_options
                (with_file npmrc_path unconfigured_npmrc fresh_world)
                (with_file npmrc_path unconfigured_npmrc fresh_world) true
                eq_refl eq_refl Hpaths) as [_ Hleft].
  split; [exact Hpaths|]. split; [reflexivity|].
  cbv zeta in Hleft. etransitivity; [exact Hleft | reflexivity].
Defined.

(** X17 with npm: a removal changes no file. *)
Lemma remove_writes_no_file_witness :
  files (snd (remove (fun pkg : jsstring => pkg) named_manager (manager_remove sample_dir)
                sample_dir plain sample_packages
                (Build_BaseOptions (Some (lit "npm")))
                (with_file npmrc_path unconfigured_npmrc fresh_world)))
    = files (with_file npmrc_path unconfigured_npmrc fresh_world).
Proof.
  apply (remove_writes_no_file jsstring bool jsstring
           (fun pkg : jsstring => pkg) named_manager
           (manager_remove sample_dir) sample_dir plain sample_packages
           (Build_BaseOptions (Some (lit "npm")))
           (with_file npmrc_path unconfigured_npmrc fresh_world)).
  - intros w'. reflexivity.
  - intros pm w'. unfold manager_remove, exec.
    by destruct (exec_fault w' _ _ _).
Defined.
